(** * A shallow embedding of the prodigy-pdf recipes

    Sources: [prodigy_pdf/__init__.py] (the image and OCR recipes) and
    [prodigy_pdf/spans.py] (the layout token stream).

    Python strings are modelled as lists of Unicode code points ([pystr]);
    Python's [str.strip], [str.split] with a one-character separator,
    [str.rfind] and slicing are written out below.  Python exceptions are the
    constructors of [pyexc] and fallible code runs in the [res] monad. *)

From Stdlib Require Import List String Ascii NArith ZArith Bool Lia Sorted.
Import ListNotations.

Open Scope list_scope.

(* ------------------------------------------------------------------ *)
(** ** Python strings *)

Definition pystr := list N.

(** ASCII literal to code points. *)
Definition s (x : string) : pystr :=
  map (fun a => N.of_nat (nat_of_ascii a)) (list_ascii_of_string x).

Definition nl : N := 10.
Definition dash : N := 45.
Definition space : N := 32.
Definition comma : N := 44.
Definition slash : N := 47.
Definition dot : N := 46.

(** [str.isspace] on one code point: the characters [str.strip()] removes. *)
Definition is_space (c : N) : bool :=
  ((9 <=? c) && (c <=? 13))%N || ((28 <=? c) && (c <=? 32))%N
  || (c =? 133)%N || (c =? 160)%N || (c =? 5760)%N
  || ((8192 <=? c) && (c <=? 8202))%N
  || (c =? 8232)%N || (c =? 8233)%N || (c =? 8239)%N || (c =? 8287)%N
  || (c =? 12288)%N.

Fixpoint lstrip (xs : pystr) : pystr :=
  match xs with
  | [] => []
  | c :: r => if is_space c then lstrip r else xs
  end.

Definition rstrip (xs : pystr) : pystr := rev (lstrip (rev xs)).

(** [str.strip()] *)
Definition strip (xs : pystr) : pystr := rstrip (lstrip xs).

(** [str.split(sep)] for a one-character separator. *)
Fixpoint split_on (sep : N) (xs : pystr) : list pystr :=
  match xs with
  | [] => [[]]
  | c :: r =>
      if (c =? sep)%N then [] :: split_on sep r
      else match split_on sep r with
           | [] => [[c]]
           | w :: ws => (c :: w) :: ws
           end
  end.

(** [sep.join(parts)] *)
Fixpoint join_with (sep : pystr) (parts : list pystr) : pystr :=
  match parts with
  | [] => []
  | [p] => p
  | p :: ps => p ++ sep ++ join_with sep ps
  end.

(** [str.rfind(c)]: the last index of [c], or [-1]. *)
Fixpoint rfind_from (c : N) (xs : pystr) (i acc : Z) : Z :=
  match xs with
  | [] => acc
  | x :: r => rfind_from c r (i + 1) (if (x =? c)%N then i else acc)
  end.

Definition rfind (c : N) (xs : pystr) : Z := rfind_from c xs 0 (-1).

(** [xs[:i]] *)
Definition slice_to (xs : pystr) (i : Z) : pystr :=
  let n := Z.of_nat (List.length xs) in
  let j := if (i <? 0)%Z then Z.max 0 (n + i) else Z.min i n in
  firstn (Z.to_nat j) xs.

Fixpoint str_eqb (a b : pystr) : bool :=
  match a, b with
  | [], [] => true
  | x :: a', y :: b' => (x =? y)%N && str_eqb a' b'
  | _, _ => false
  end.

(** [str.startswith(p)] *)
Fixpoint startswith (xs p : pystr) : bool :=
  match p, xs with
  | [], _ => true
  | c :: p', x :: xs' => (c =? x)%N && startswith xs' p'
  | _ :: _, [] => false
  end.

(** [p in xs] for strings (substring test). *)
Fixpoint str_contains (xs p : pystr) : bool :=
  match xs with
  | [] => startswith [] p
  | _ :: r => startswith xs p || str_contains r p
  end.

(** [x in lst] for a list of strings. *)
Definition str_in (x : pystr) (lst : list pystr) : bool :=
  existsb (str_eqb x) lst.

(* ------------------------------------------------------------------ *)
(** ** [fold_ocr_dashes] (prodigy_pdf/__init__.py) *)

(** The contribution of one line: [newline] in the loop body. *)
Definition fold_line (line : pystr) : pystr :=
  let line := strip line in
  if (rfind dash line =? -1)%Z then line ++ [space]
  else slice_to line (rfind dash line).

Definition fold_step (new line : pystr) : pystr := new ++ fold_line line.

Definition fold_ocr_dashes (ocr_input : pystr) : pystr :=
  strip (fold_left fold_step (split_on nl ocr_input) []).

(* ------------------------------------------------------------------ *)
(** ** Exceptions, the error monad and JSON-like values *)

Inductive pyexc :=
| KeyError (key : pystr)
| ValueError (msg : pystr)
| IndexError
| TypeError
| AttributeError
| SystemExit (code : Z)
| RecipeError (msg : pystr).

Inductive res (A : Type) : Type :=
| Ok (a : A)
| Err (e : pyexc).
Arguments Ok {A} a.
Arguments Err {A} e.

Definition bind {A B : Type} (m : res A) (k : A -> res B) : res B :=
  match m with Ok a => k a | Err e => Err e end.

Notation "x <- m ;; k" := (bind m (fun x => k))
  (at level 61, m at next level, right associativity).

Fixpoint map_res {A B : Type} (f : A -> res B) (xs : list A) : res (list B) :=
  match xs with
  | [] => Ok []
  | x :: r => y <- f x ;; ys <- map_res f r ;; Ok (y :: ys)
  end.

(** Dictionaries as association lists in insertion order, as Python keeps
    them: assignment to an existing key keeps its position. *)
Section Dict.
Context {K V : Type} (eqk : K -> K -> bool).

Fixpoint dict_get (k : K) (d : list (K * V)) : option V :=
  match d with
  | [] => None
  | (k', v) :: r => if eqk k k' then Some v else dict_get k r
  end.

Fixpoint dict_set (k : K) (v : V) (d : list (K * V)) : list (K * V) :=
  match d with
  | [] => [(k, v)]
  | (k', v') :: r => if eqk k k' then (k', v) :: r else (k', v') :: dict_set k v r
  end.

Fixpoint dict_del (k : K) (d : list (K * V)) : list (K * V) :=
  match d with
  | [] => []
  | (k', v') :: r => if eqk k k' then r else (k', v') :: dict_del k r
  end.
End Dict.

#[local] Set Warnings "-register-all".

(** Values of the task dictionaries (JSON). *)
Inductive json :=
| JNull
| JBool (b : bool)
| JInt (z : Z)
| JStr (v : pystr)
| JList (xs : list json)
| JObj (kvs : list (pystr * json)).

(** [eg[k]] *)
Definition get (eg : json) (k : pystr) : res json :=
  match eg with
  | JObj kvs => match dict_get str_eqb k kvs with Some v => Ok v | None => Err (KeyError k) end
  | _ => Err TypeError
  end.

(** [eg.get(k, default)] *)
Definition get_default (eg : json) (k : pystr) (default : json) : res json :=
  match eg with
  | JObj kvs => match dict_get str_eqb k kvs with Some v => Ok v | None => Ok default end
  | _ => Err AttributeError
  end.

(** [eg[k] = v] *)
Definition json_set (eg : json) (k : pystr) (v : json) : json :=
  match eg with JObj kvs => JObj (dict_set str_eqb k v kvs) | _ => eg end.

(** [del eg[k]] *)
Definition json_del (eg : json) (k : pystr) : res json :=
  match eg with
  | JObj kvs => match dict_get str_eqb k kvs with
                | Some _ => Ok (JObj (dict_del str_eqb k kvs))
                | None => Err (KeyError k)
                end
  | _ => Err TypeError
  end.

(** [k in v] for a string [k]: key test on a dict, substring test on a
    string, element test on a list; other values raise [TypeError]. *)
Definition json_in (k : pystr) (v : json) : res bool :=
  match v with
  | JObj kvs => Ok (match dict_get str_eqb k kvs with Some _ => true | None => false end)
  | JStr t => Ok (str_contains t k)
  | JList xs => Ok (existsb (fun x => match x with JStr t => str_eqb t k | _ => false end) xs)
  | _ => Err TypeError
  end.

(* ------------------------------------------------------------------ *)
(** ** Rendering and encoding (pypdfium2, PIL, base64)

    A rendered page is identified by its document, page index and scale; a
    crop by its source and pixel box; the bytes written by [Image.save] carry
    the format they were written in.  Base64 and OCR stay opaque. *)

Inductive image_format := JPEG | PNG.

Inductive pil_image :=
| Rendered (path : pystr) (page : Z) (scale : Z)
| Cropped (src : pil_image) (box : Z * Z * Z * Z).

Record encoded := { enc_format : image_format; enc_image : pil_image }.

(** [img.save(buffered, format=fmt); buffered.getvalue()] *)
Definition pil_save (img : pil_image) (fmt : image_format) : encoded :=
  {| enc_format := fmt; enc_image := img |}.

(** [Image.crop(box)]: PIL refuses a box whose right edge lies left of its
    left edge, or whose lower edge lies above its upper edge; any other box
    is cut out (padded where it leaves the image). *)
Definition pil_crop (img : pil_image) (box : Z * Z * Z * Z) : res pil_image :=
  let '(x0, y0, x1, y1) := box in
  if (x1 <? x0)%Z then Err (ValueError (s "Coordinate 'right' is less than 'left'"))
  else if (y1 <? y0)%Z then Err (ValueError (s "Coordinate 'lower' is less than 'upper'"))
  else Ok (Cropped img box).

(** [img.save(buffered, format="JPEG")]: the JPEG writer refuses an image of
    width or height 0.  A crop is as large as its box; a rendered page is
    taken to be non-empty. *)
Definition pil_save_jpeg (img : pil_image) : res encoded :=
  match img with
  | Cropped _ (x0, y0, x1, y1) =>
      if ((x1 =? x0) || (y1 =? y0))%Z
      then Err (ValueError (s "cannot write empty image as JPEG"))
      else Ok (pil_save img JPEG)
  | Rendered _ _ _ => Ok (pil_save img JPEG)
  end.

(** The media type of each encoding. *)
Definition mime_of (fmt : image_format) : pystr :=
  match fmt with JPEG => s "image/jpeg" | PNG => s "image/png" end.

Definition data_uri_prefix : pystr := s "data:image/png;base64,".

(** The media type a data URI declares: what lies between [data:] and the
    first [;] or [,]. *)
Fixpoint take_media (xs : pystr) : pystr :=
  match xs with
  | [] => []
  | c :: r => if ((c =? 59) || (c =? 44))%N then [] else c :: take_media r
  end.

Definition data_uri_media (uri : pystr) : option pystr :=
  if startswith uri (s "data:") then Some (take_media (skipn 5 uri)) else None.

(* ------------------------------------------------------------------ *)
(** ** [page_to_cropped_image] (prodigy_pdf/__init__.py)

    Generic in the number type of the region (ints or floats from the task
    JSON), the image type and the PIL primitives. *)

Record region (Num : Type) := { rx : Num; ry : Num; rwidth : Num; rheight : Num }.
Arguments rx {Num}. Arguments ry {Num}. Arguments rwidth {Num}. Arguments rheight {Num}.

Section Crop.
Variable Num : Type.
Variables add mul : Num -> Num -> Num.
Variables Img Buf : Type.
(** [Image.crop], [Image.save(format="JPEG")] and [base64.b64encode]. *)
Variable crop : Img -> Num * Num * Num * Num -> Img.
Variable save_jpeg : Img -> Buf.
Variable b64encode : Buf -> pystr.

Definition page_to_cropped_image (pil_page : Img) (span : region Num) (scale : Num)
  : Img * pystr :=
  let left := rx span in
  let upper := ry span in
  let right := add left (rwidth span) in
  let lower := add upper (rheight span) in
  let scaled := (mul left scale, mul upper scale, mul right scale, mul lower scale) in
  let cropped := crop pil_page scaled in
  (cropped, data_uri_prefix ++ b64encode (save_jpeg cropped)).
End Crop.

(* ------------------------------------------------------------------ *)
(** ** The [pdf.image.manual] recipe (prodigy_pdf/__init__.py) *)

(** A file system entry of the source folder and the state of the folder. *)
Inductive entry_kind := EFile | EDir.

Inductive fs_node :=
| Missing
| RegularFile
| Directory (entries : list (pystr * entry_kind)).

Record fpath := { fp_dir : pystr; fp_name : pystr }.

(** [str(path)] *)
Definition path_str (p : fpath) : pystr := fp_dir p ++ [slash] ++ fp_name p.

Definition endswith (xs suffix : pystr) : bool :=
  startswith (rev xs) (rev suffix).

(** [Path(folder).glob("*.pdf")] (case-sensitive, in directory order). *)
Definition glob_pdf (folder : pystr) (node : fs_node) : list fpath :=
  match node with
  | Directory entries =>
      map (fun e => {| fp_dir := folder; fp_name := fst e |})
          (filter (fun e => endswith (fst e) (s ".pdf")) entries)
  | _ => []
  end.

Definition palette : list pystr :=
  [s "#00ffff"; s "#ff00ff"; s "#00ff7f"; s "#ff6347"; s "#00bfff"; s "#ffa500";
   s "#ff69b4"; s "#7fffd4"; s "#ffd700"; s "#ffdab9"; s "#adff2f"; s "#d2b48c";
   s "#dcdcdc"; s "#ffff00"].

(** [{lab: color[i] for i, lab in enumerate(labels.split(","))}] *)
Fixpoint label_colors_from (i : nat) (labs : list pystr) (acc : list (pystr * pystr))
  : res (list (pystr * pystr)) :=
  match labs with
  | [] => Ok acc
  | lab :: r =>
      match nth_error palette i with
      | None => Err IndexError
      | Some c => label_colors_from (S i) r (dict_set str_eqb lab c acc)
      end
  end.

Definition label_colors (labels : pystr) : res (list (pystr * pystr)) :=
  label_colors_from 0 (split_on comma labels) [].

(** [before_db]: strip the data URIs from the examples and their pages. *)
Definition strip_image (eg : json) : res json :=
  img <- get eg (s "image") ;;
  match img with
  | JStr v => if startswith v (s "data:") then json_del eg (s "image") else Ok eg
  | _ => Err AttributeError
  end.

Definition before_db_image_one (eg : json) : res json :=
  eg <- strip_image eg ;;
  pages <- get_default eg (s "pages") (JList []) ;;
  match pages with
  | JList ps =>
      ps' <- map_res strip_image ps ;;
      match get eg (s "pages") with
      | Ok _ => Ok (json_set eg (s "pages") (JList ps'))
      | Err _ => Ok eg
      end
  | _ => Err TypeError
  end.

Definition before_db_image (examples : list json) : res (list json) :=
  map_res before_db_image_one examples.

Record image_components := {
  ic_dataset : pystr;
  ic_stream : list json;
  ic_before_db : option (list json -> res (list json));
  ic_view_id : pystr;
  ic_labels : list pystr;
  ic_label_colors : list (pystr * pystr)
}.

Definition msg_folder_missing (folder : pystr) : pystr :=
  s "Folder `" ++ folder ++ s "` does not exist.".

Definition msg_no_pdfs : pystr := s "Did not find any .pdf files in folder.".

Section ImageRecipe.
(** [base64.b64encode], [len(pdfium.PdfDocument(path))] and Prodigy's
    hashes, all opaque. *)
Variable b64encode : encoded -> pystr.
Variable n_pages : fpath -> nat.
Variables input_hash task_hash : json -> Z.

(** [set_hashes] adds the two hash keys. *)
Definition set_hashes (eg : json) : json :=
  json_set (json_set eg (s "_input_hash") (JInt (input_hash eg)))
           (s "_task_hash") (JInt (task_hash eg)).

(** [page_to_image]: [page.render().to_pil()] at the default scale 1. *)
Definition page_to_image (path : pystr) (page_number : Z) : pystr :=
  let pil_image := Rendered path page_number 1 in
  let img_str := b64encode (pil_save pil_image JPEG) in
  data_uri_prefix ++ img_str.

(** [pdf_to_images] (prodigy_pdf/spans.py) *)
Definition pdf_to_images (path : pystr) (n : nat) : list pystr :=
  map (fun page_number =>
         let pil_image := Rendered path (Z.of_nat page_number) 1 in
         let img_str := b64encode (pil_save pil_image JPEG) in
         data_uri_prefix ++ img_str) (seq 0 n).

Definition page_dict (pdf_path : fpath) (page_number : nat) : json :=
  JObj [(s "image", JStr (page_to_image (path_str pdf_path) (Z.of_nat page_number)));
        (s "path", JStr (path_str pdf_path));
        (s "meta", JObj [(s "title", JStr (fp_name pdf_path));
                         (s "page", JInt (Z.of_nat page_number))])].

Definition generate_pdf_pages (pdf_paths : list fpath) (split_pages : bool) : list json :=
  flat_map (fun pdf_path =>
    let pages := map (page_dict pdf_path) (seq 0 (n_pages pdf_path)) in
    if split_pages then map set_hashes pages
    else [set_hashes
            (JObj [(s "pages", JList (map (fun page => json_set page (s "view_id")
                                                         (JStr (s "image_manual"))) pages));
                   (s "meta", JObj [(s "title", JStr (fp_name pdf_path))]);
                   (s "config", JObj [(s "view_id", JStr (s "pages"))])])])
    pdf_paths.

(** The recipe: the messages it prints and its outcome.  [msg.fail] with
    [exits=True] raises [SystemExit(1)]; without it, it only prints. *)
Definition pdf_image_manual (dataset pdf_folder : pystr) (node : fs_node)
    (labels : pystr) (remove_base64 split_pages : bool)
  : list pystr * res image_components :=
  match node with
  | Missing => ([msg_folder_missing pdf_folder], Err (SystemExit 1))
  | _ =>
      let pdf_paths := glob_pdf pdf_folder node in
      let printed := if Nat.eqb (List.length pdf_paths) 0 then [msg_no_pdfs] else [] in
      let stream := generate_pdf_pages pdf_paths split_pages in
      (printed,
        colors <- label_colors labels ;;
        Ok {| ic_dataset := dataset;
              ic_stream := stream;
              ic_before_db := if remove_base64 then Some before_db_image else None;
              ic_view_id := s "image_manual";
              ic_labels := split_on comma labels;
              ic_label_colors := colors |})
  end.
End ImageRecipe.

(* ------------------------------------------------------------------ *)
(** ** The [pdf.ocr.correct] recipe (prodigy_pdf/__init__.py) *)

Definition msg_missing_meta : pystr :=
  s "It seems the `meta` key is missing from an example. Did you annotate this data with `pdf.image.manual`?".
Definition msg_missing_path : pystr :=
  s "It seems the `path` key is missing from an example. Did you annotate this data with `pdf.image.manual`?".
Definition msg_missing_page : pystr :=
  s "It seems the `page` key is missing from an example metadata. Did you annotate this data with `pdf.image.manual`?".

(** The checks [_validate_ocr_example] makes on one example. *)
Definition validate_ocr_one (eg : json) : res unit :=
  has_meta <- json_in (s "meta") eg ;;
  if negb has_meta then Err (ValueError msg_missing_meta) else
  has_path <- json_in (s "path") eg ;;
  if negb has_path then Err (ValueError msg_missing_path) else
  meta <- get eg (s "meta") ;;
  has_page <- json_in (s "page") meta ;;
  if negb has_page then Err (ValueError msg_missing_page) else Ok tt.

(** [_validate_ocr_example] as a generator: the examples it passes on before
    it raises, and the exception it raises, if any. *)
Fixpoint validate_ocr_example (stream : list json) : list json * option pyexc :=
  match stream with
  | [] => ([], None)
  | eg :: r =>
      match validate_ocr_one eg with
      | Err e => ([], Some e)
      | Ok _ => let (ok, e) := validate_ocr_example r in (eg :: ok, e)
      end
  end.

(** What the stream does, in order. *)
Inductive event :=
| OpenDoc (path : pystr)                     (* pdfium.PdfDocument(path) *)
| RenderPage (path : pystr) (page scale : Z) (* page.render(scale=scale) *)
| RunOcr (img : pil_image)                   (* pytesseract.image_to_string *)
| Yield (task : json).

(** A writer of events with Python exceptions. *)
Definition traced (A : Type) : Type := (list event * res A)%type.

Definition tret {A : Type} (a : A) : traced A := ([], Ok a).
Definition tlift {A : Type} (r : res A) : traced A := ([], r).
Definition emit (ev : event) : traced unit := ([ev], Ok tt).
Definition tbind {A B : Type} (m : traced A) (k : A -> traced B) : traced B :=
  let (evs, r) := m in
  match r with
  | Ok a => let (evs', r') := k a in (evs ++ evs', r')
  | Err e => (evs, Err e)
  end.

Notation "x <<- m ;;; k" := (tbind m (fun x => k))
  (at level 61, m at next level, right associativity).

Fixpoint titer {A : Type} (f : A -> traced unit) (xs : list A) : traced unit :=
  match xs with
  | [] => tret tt
  | x :: r => _ <<- f x ;;; titer f r
  end.

(** [span["label"] in labels] *)
Definition span_is_useful (labels : list pystr) (span : json) : res bool :=
  l <- get span (s "label") ;;
  match l with JStr v => Ok (str_in v labels) | _ => Ok false end.

Fixpoint filter_res {A : Type} (p : A -> res bool) (xs : list A) : res (list A) :=
  match xs with
  | [] => Ok []
  | x :: r => b <- p x ;; ys <- filter_res p r ;; Ok (if b then x :: ys else ys)
  end.

(** [useful_spans = [span for span in ex.get("spans", []) if ...]] *)
Definition useful_spans (labels : list pystr) (ex : json) : res (list json) :=
  spans <- get_default ex (s "spans") (JList []) ;;
  match spans with
  | JList xs => filter_res (span_is_useful labels) xs
  | _ => Err TypeError
  end.

Definition as_int (v : json) : res Z :=
  match v with JInt z => Ok z | _ => Err TypeError end.

Definition as_str (v : json) : res pystr :=
  match v with JStr t => Ok t | _ => Err TypeError end.

(** [span["x"], span["y"], span["width"], span["height"]] *)
Definition region_of (span : json) : res (region Z) :=
  x <- get span (s "x") ;; x <- as_int x ;;
  y <- get span (s "y") ;; y <- as_int y ;;
  w <- get span (s "width") ;; w <- as_int w ;;
  h <- get span (s "height") ;; h <- as_int h ;;
  Ok {| rx := x; ry := y; rwidth := w; rheight := h |}.

(** [{**annot, **text_input_fields}] *)
Definition merge (a : json) (fields : list (pystr * json)) : json :=
  fold_left (fun eg kv => json_set eg (fst kv) (snd kv)) fields a.

Section OcrRecipe.
Variable b64encode : encoded -> pystr.
Variable ocr : pil_image -> pystr.
Variables input_hash task_hash : json -> Z.
Variables (labels : list pystr) (scale : Z) (fold_dashes autofocus : bool).

(** [page_to_cropped_image(pil_page, annot, scale)] with PIL's errors:
    [Image.crop] and the JPEG writer may raise [ValueError]. *)
Definition crop_annot (pil_page : pil_image) (annot : json) : res (pil_image * pystr) :=
  span <- region_of annot ;;
  let left := rx span in
  let upper := ry span in
  let right := (left + rwidth span)%Z in
  let lower := (upper + rheight span)%Z in
  let scaled := (left * scale, upper * scale, right * scale, lower * scale)%Z in
  cropped <- pil_crop pil_page scaled ;;
  buffered <- pil_save_jpeg cropped ;;
  Ok (cropped, data_uri_prefix ++ b64encode buffered).

(** The body of [for annot in useful_spans]. *)
Definition process_annot (ex : json) (pil_page : pil_image) (annot : json) : traced unit :=
  ci <<- tlift (crop_annot pil_page annot) ;;;
  let (cropped, img_str) := ci in
  _ <<- emit (RunOcr cropped) ;;;
  let text := ocr cropped in
  let text := if fold_dashes then fold_ocr_dashes text else text in
  meta <<- tlift (get ex (s "meta")) ;;;
  let annot := json_set annot (s "image") (JStr img_str) in
  let annot := json_set annot (s "text") (JStr text) in
  let annot := json_set annot (s "transcription") (JStr text) in
  let annot := json_set annot (s "meta") meta in
  let text_input_fields :=
    [(s "field_rows", JInt 12); (s "field_label", JStr (s "Transcript"));
     (s "field_id", JStr (s "transcription")); (s "field_autofocus", JBool autofocus)] in
  annot <<- tlift (json_del annot (s "id")) ;;;
  emit (Yield (set_hashes input_hash task_hash (merge annot text_input_fields))).

(** One iteration of [new_stream]'s loop.  The call
    [_validate_ocr_example(ex)] only creates a generator and runs nothing. *)
Definition process_task (ex : json) : traced unit :=
  useful <<- tlift (useful_spans labels ex) ;;;
  match useful with
  | [] => tret tt
  | _ :: _ =>
      path <<- tlift (get ex (s "path")) ;;; path <<- tlift (as_str path) ;;;
      _ <<- emit (OpenDoc path) ;;;
      meta <<- tlift (get ex (s "meta")) ;;;
      page <<- tlift (get meta (s "page")) ;;; page <<- tlift (as_int page) ;;;
      _ <<- emit (RenderPage path page scale) ;;;
      let pil_page := Rendered path page scale in
      titer (process_annot ex pil_page) useful
  end.

Definition new_stream (stream : list json) : traced unit := titer process_task stream.

(** [stream.apply(_validate_ocr_example); stream.apply(new_stream)]: the
    generators are lazy, so [new_stream] processes every example the
    validator passed on before the validator's exception surfaces. *)
Definition pdf_ocr_correct_stream (source : list json) : list event * option pyexc :=
  let (validated, verr) := validate_ocr_example source in
  let (evs, r) := new_stream validated in
  match r with
  | Err e => (evs, Some e)
  | Ok _ => (evs, verr)
  end.
End OcrRecipe.

(* ------------------------------------------------------------------ *)
(** ** The layout token stream (prodigy_pdf/spans.py)

    The document spaCy-Layout returns: spaCy tokens (text, and whether a
    space follows), the [layout] span group (token ranges with labels) and the
    pages, each a page layout with its spans in layout order. *)

Record token := { tok_text : pystr; tok_ws : bool }.
Record lspan := { sp_start : nat; sp_end : nat; sp_label : pystr }.
Record page_layout := { page_no : Z; pl_width : Z; pl_height : Z }.
Record ldoc := {
  doc_tokens : list token;
  doc_layout_spans : list lspan;
  doc_pages : list (page_layout * list lspan)
}.

Definition SEPARATOR : pystr := [nl; nl].

(** [DocItemLabel.SECTION_HEADER], [PAGE_HEADER], [TITLE] *)
Definition HEADINGS : list pystr := [s "section_header"; s "page_header"; s "title"].

(** [token.text_with_ws] *)
Definition text_with_ws (t : token) : pystr :=
  tok_text t ++ (if tok_ws t then [space] else []).

(** The tokens of [doc[st:en]], each with its index [token.i] in the doc. *)
Definition doc_slice (d : ldoc) (st en : nat) : list (nat * token) :=
  combine (seq st (en - st)) (firstn (en - st) (skipn st (doc_tokens d))).

(** spaCy's [Span.text]: the text with whitespace, minus the whitespace of
    the last token. *)
Definition span_text (d : ldoc) (sp : lspan) : pystr :=
  let toks := map snd (doc_slice d (sp_start sp) (sp_end sp)) in
  let text := List.concat (map text_with_ws toks) in
  match rev toks with
  | t :: _ => if tok_ws t then removelast text else text
  | [] => text
  end.

(** [get_token_labels] *)
Definition get_token_labels (d : ldoc) : list (nat * pystr) :=
  fold_left (fun labels_by_id sp =>
               fold_left (fun acc i => dict_set Nat.eqb i (sp_label sp) acc)
                         (seq (sp_start sp) (sp_end sp - sp_start sp)) labels_by_id)
            (doc_layout_spans d) [].

Inductive token_style := StyleHidden | StyleHeading.

(** The token dictionaries of a task.  [disabled] is absent (false) unless
    the token is the separator. *)
Record layout_token := {
  lt_text : pystr;
  lt_start : nat;
  lt_end : nat;
  lt_id : nat;
  lt_ws : bool;
  lt_layout : option pystr;
  lt_disabled : bool;
  lt_style : option token_style
}.

Fixpoint layout_tokens_from (token_labels : list (nat * pystr)) (toks : list (nat * token))
    (i offset : nat) : list layout_token :=
  match toks with
  | [] => []
  | (ti, t) :: r =>
      let token_label := dict_get Nat.eqb ti token_labels in
      let is_sep := str_eqb (tok_text t) SEPARATOR in
      let is_heading := match token_label with Some l => str_in l HEADINGS | None => false end in
      {| lt_text := tok_text t;
         lt_start := offset;
         lt_end := offset + List.length (tok_text t);
         lt_id := i;
         lt_ws := tok_ws t;
         lt_layout := token_label;
         lt_disabled := is_sep;
         lt_style := if is_heading then Some StyleHeading
                     else if is_sep then Some StyleHidden else None |}
      :: layout_tokens_from token_labels r (S i) (offset + List.length (tok_text t))
  end.

(** [get_layout_tokens(doc, token_labels)] *)
Definition get_layout_tokens (toks : list (nat * token)) (token_labels : list (nat * pystr))
  : list layout_token :=
  layout_tokens_from token_labels toks 0 0.

(** The text-bearing fields of a task ([text], [tokens], [width], [height],
    [image]); the view configuration and hashes are not modelled. *)
Record lpage := {
  pg_text : pystr;
  pg_tokens : list layout_token;
  pg_width : Z;
  pg_height : Z;
  pg_image : option pystr
}.

Inductive ltask :=
| PageTask (page : lpage) (title : pystr) (page_number : Z)
| DocTask (pages : list lpage) (title : pystr)
| FocusTask (eg : lpage) (span_label : pystr) (title : pystr) (page_number : Z).

(** [if not self.hide_preview and images: page["image"] = images[i]] *)
Definition page_image (hide_preview : bool) (images : option (list pystr)) (i : nat)
  : res (option pystr) :=
  if hide_preview then Ok None else
  match images with
  | Some ((_ :: _) as imgs) =>
      match nth_error imgs i with Some img => Ok (Some img) | None => Err IndexError end
  | _ => Ok None
  end.

(** [path.stem] *)
Definition path_stem (name : pystr) : pystr :=
  let i := rfind dot name in
  if ((0 <? i) && (i <? Z.of_nat (List.length name) - 1))%Z
  then firstn (Z.to_nat i) name else name.

(** [path.suffix] *)
Definition path_suffix (name : pystr) : pystr :=
  let i := rfind dot name in
  if ((0 <? i) && (i <? Z.of_nat (List.length name) - 1))%Z
  then skipn (Z.to_nat i) name else [].

(** [str.lower] on ASCII letters. *)
Definition lower (xs : pystr) : pystr :=
  map (fun c => if ((65 <=? c) && (c <=? 90))%N then (c + 32)%N else c) xs.

Fixpoint str_leb (a b : pystr) : bool :=
  match a, b with
  | [], _ => true
  | _ :: _, [] => false
  | x :: a', y :: b' => (x <? y)%N || ((x =? y)%N && str_leb a' b')
  end.

Fixpoint insert_sorted (e : pystr * entry_kind) (es : list (pystr * entry_kind))
  : list (pystr * entry_kind) :=
  match es with
  | [] => [e]
  | e' :: r => if str_leb (fst e) (fst e') then e :: es else e' :: insert_sorted e r
  end.

(** [sorted(dir_path.iterdir())]: the entries of one folder, by name. *)
Definition sort_entries (es : list (pystr * entry_kind)) : list (pystr * entry_kind) :=
  fold_right insert_sorted [] es.

(** [path.is_file() and not path.name.startswith(".")
     and (path.suffix.lower()[1:] in file_ext)] *)
Definition layout_entry_ok (file_ext : list pystr) (e : pystr * entry_kind) : bool :=
  match snd e with EFile => true | EDir => false end
  && negb (startswith (fst e) [dot])
  && str_in (skipn 1 (lower (path_suffix (fst e)))) file_ext.

(** The paths [LayoutStream.__init__] keeps, or its [RecipeError]. *)
Definition layout_stream_paths (f : pystr) (node : fs_node) (file_ext : list pystr)
  : res (list fpath) :=
  match node with
  | Directory entries =>
      Ok (map (fun e => {| fp_dir := f; fp_name := fst e |})
              (filter (layout_entry_ok file_ext) (sort_entries entries)))
  | _ => Err (RecipeError (s "Can't load from directory " ++ f))
  end.

Section LayoutStream.
(** [spaCyLayout(nlp, separator=SEPARATOR)(path)], [base64.b64encode] and
    the page count of each PDF. *)
Variable layout : fpath -> ldoc.
Variable b64encode : encoded -> pystr.
Variable n_pages : fpath -> nat.
Variables (split_pages hide_preview : bool) (focus : list pystr).

Definition file_images (file_path : fpath) : option (list pystr) :=
  if hide_preview then None
  else Some (pdf_to_images b64encode (path_str file_path) (n_pages file_path)).

(** The [page] dictionary of [get_full_stream]. *)
Definition full_page (d : ldoc) (images : option (list pystr)) (i : nat)
    (pl : page_layout) (page_spans : list lspan) : res lpage :=
  let token_labels := get_token_labels d in
  first <- match page_spans with sp :: _ => Ok sp | [] => Err IndexError end ;;
  last <- match rev page_spans with sp :: _ => Ok sp | [] => Err IndexError end ;;
  img <- page_image hide_preview images i ;;
  Ok {| pg_text := join_with SEPARATOR (map (span_text d) page_spans);
        pg_tokens := get_layout_tokens (doc_slice d (sp_start first) (sp_end last))
                       token_labels;
        pg_width := pl_width pl;
        pg_height := pl_height pl;
        pg_image := img |}.

Fixpoint full_pages_from (d : ldoc) (images : option (list pystr)) (i : nat)
    (pages : list (page_layout * list lspan)) : list (page_layout * lpage) * option pyexc :=
  match pages with
  | [] => ([], None)
  | (pl, sps) :: r =>
      match full_page d images i pl sps with
      | Err e => ([], Some e)
      | Ok pg => let (rest, e) := full_pages_from d images (S i) r in ((pl, pg) :: rest, e)
      end
  end.

Definition full_stream_file (file_path : fpath) : list ltask * option pyexc :=
  let d := layout file_path in
  let images := file_images file_path in
  let title := path_stem (fp_name file_path) in
  let (pgs, e) := full_pages_from d images 0 (doc_pages d) in
  if split_pages
  then (map (fun p => PageTask (snd p) title (page_no (fst p))) pgs, e)
  else match e with
       | None => ([DocTask (map snd pgs) title], None)
       | Some e => ([], Some e)
       end.

(** The task [get_focus_stream] yields for one span. *)
Definition focus_task (d : ldoc) (images : option (list pystr)) (i : nat)
    (pl : page_layout) (title : pystr) (sp : lspan) : res ltask :=
  let token_labels := get_token_labels d in
  img <- page_image hide_preview images i ;;
  Ok (FocusTask {| pg_text := span_text d sp;
                   pg_tokens := get_layout_tokens (doc_slice d (sp_start sp) (sp_end sp))
                                  token_labels;
                   pg_width := pl_width pl;
                   pg_height := pl_height pl;
                   pg_image := img |}
                (sp_label sp) title (page_no pl)).

Fixpoint focus_spans (d : ldoc) (images : option (list pystr)) (i : nat)
    (pl : page_layout) (title : pystr) (sps : list lspan) : list ltask * option pyexc :=
  match sps with
  | [] => ([], None)
  | sp :: r =>
      if negb (str_in (sp_label sp) focus) then focus_spans d images i pl title r
      else match focus_task d images i pl title sp with
           | Err e => ([], Some e)
           | Ok t => let (rest, e) := focus_spans d images i pl title r in (t :: rest, e)
           end
  end.

Fixpoint focus_pages (d : ldoc) (images : option (list pystr)) (i : nat) (title : pystr)
    (pages : list (page_layout * list lspan)) : list ltask * option pyexc :=
  match pages with
  | [] => ([], None)
  | (pl, sps) :: r =>
      let (ts, e) := focus_spans d images i pl title sps in
      match e with
      | Some _ => (ts, e)
      | None => let (ts', e') := focus_pages d images (S i) title r in (ts ++ ts', e')
      end
  end.

Definition focus_stream_file (file_path : fpath) : list ltask * option pyexc :=
  let d := layout file_path in
  focus_pages d (file_images file_path) 0 (path_stem (fp_name file_path)) (doc_pages d).

Fixpoint stream_files (per_file : fpath -> list ltask * option pyexc) (paths : list fpath)
  : list ltask * option pyexc :=
  match paths with
  | [] => ([], None)
  | p :: r =>
      let (ts, e) := per_file p in
      match e with
      | Some _ => (ts, e)
      | None => let (ts', e') := stream_files per_file r in (ts ++ ts', e')
      end
  end.

(** [LayoutStream.get_stream] *)
Definition get_stream (paths : list fpath) : list ltask * option pyexc :=
  match focus with
  | _ :: _ => stream_files focus_stream_file paths
  | [] => stream_files full_stream_file paths
  end.
End LayoutStream.

(* ------------------------------------------------------------------ *)
(** ** Observations on the event traces of [pdf.ocr.correct] *)

Definition is_open (e : event) : bool := match e with OpenDoc _ => true | _ => false end.
Definition is_render (e : event) : bool :=
  match e with RenderPage _ _ _ => true | _ => false end.

Definition count_open (evs : list event) : nat := List.length (filter is_open evs).
Definition count_render (evs : list event) : nat := List.length (filter is_render evs).

(** The task has a span whose label is one of [labels]. *)
Definition has_labelled_span (labels : list pystr) (ex : json) : Prop :=
  exists spans sp l,
    get_default ex (s "spans") (JList []) = Ok (JList spans) /\ In sp spans
    /\ get sp (s "label") = Ok (JStr l) /\ In l labels.

(** [ex] is a dictionary that lacks [key]: [meta] or [path] at the top, or
    [page] in its [meta] dictionary. *)
Definition missing_key (ex : json) (key : pystr) : Prop :=
  exists kvs, ex = JObj kvs /\
    ((key = s "meta" /\ dict_get str_eqb (s "meta") kvs = None)
     \/ (key = s "path" /\ dict_get str_eqb (s "path") kvs = None)
     \/ (key = s "page" /\ exists mkvs, dict_get str_eqb (s "meta") kvs = Some (JObj mkvs)
                                      /\ dict_get str_eqb (s "page") mkvs = None)).

Definition backquote : N := 96.

Definition all_space (xs : pystr) : Prop := Forall (fun c => is_space c = true) xs.

(** [t] is [l] with all leading and trailing whitespace removed. *)
Definition trimmed_of (l t : pystr) : Prop :=
  exists pre suf,
    l = pre ++ t ++ suf /\ all_space pre /\ all_space suf /\
    (t = [] \/
     ((exists c r, t = c :: r /\ is_space c = false) /\
      (exists r c, t = r ++ [c] /\ is_space c = false))).

(** Every token's offsets index its own text in the task text, and the last
    token ends at the end of the text. *)
Definition offsets_index_text (pg : lpage) : Prop :=
  Forall (fun t => firstn (lt_end t - lt_start t) (skipn (lt_start t) (pg_text pg)) = lt_text t)
         (pg_tokens pg)
  /\ match rev (pg_tokens pg) with
     | t :: _ => lt_end t = List.length (pg_text pg)
     | [] => True
     end.

Definition hello_doc : ldoc :=
  {| doc_tokens := [{| tok_text := s "Hello"; tok_ws := true |};
                    {| tok_text := s "world"; tok_ws := false |}];
     doc_layout_spans := [{| sp_start := 0; sp_end := 2; sp_label := s "text" |}];
     doc_pages := [({| page_no := 1; pl_width := 612; pl_height := 792 |},
                    [{| sp_start := 0; sp_end := 2; sp_label := s "text" |}])] |}.

Definition hello_path : fpath := {| fp_dir := s "docs"; fp_name := s "hello.pdf" |}.

Definition fifteen_labels : pystr := s "a,b,c,d,e,f,g,h,i,j,k,l,m,n,o".

Definition one_pdf_folder : fs_node := Directory [(s "paper.pdf", EFile)].

Definition no_open_render (e : event) : Prop := is_open e = false /\ is_render e = false.

(** A task annotated with [pdf.image.manual]: two boxes labelled [a] on page 0. *)
Definition box_span (x : Z) : json :=
  JObj [(s "x", JInt x); (s "y", JInt 0); (s "width", JInt 10); (s "height", JInt 5);
        (s "label", JStr (s "a")); (s "id", JInt x)].

Definition two_box_task : json :=
  JObj [(s "path", JStr (s "paper.pdf")); (s "meta", JObj [(s "page", JInt 0)]);
        (s "spans", JList [box_span 0; box_span 20])].

(* ------------------------------------------------------------------ *)
(** ** [before_db] of [pdf.ocr.correct] (prodigy_pdf/__init__.py) *)

(** Only the top-level data URI is removed: the OCR tasks carry no pages. *)
Definition before_db_ocr (examples : list json) : res (list json) :=
  map_res strip_image examples.

(* ------------------------------------------------------------------ *)
(** ** Stream transformers of [pdf.spans.manual] (prodigy_pdf/spans.py) *)

(** A generator applied to each example: the examples it yields before an
    exception, and the exception. *)
Fixpoint stream_map (f : json -> res json) (xs : list json) : list json * option pyexc :=
  match xs with
  | [] => ([], None)
  | x :: r =>
      match f x with
      | Err e => ([], Some e)
      | Ok y => let (ys, e) := stream_map f r in (y :: ys, e)
      end
  end.

(** [stream.apply(gen)] on a stream that may itself end in an exception. *)
Definition stream_apply (f : json -> res json) (st : list json * option pyexc)
  : list json * option pyexc :=
  let (xs, e) := st in
  let (ys, e') := stream_map f xs in
  match e' with Some _ => (ys, e') | None => (ys, e) end.

(** [for x in v]: a list's elements, a dict's keys, a string's characters. *)
Definition json_iter (v : json) : res (list json) :=
  match v with
  | JList xs => Ok xs
  | JObj kvs => Ok (map (fun kv => JStr (fst kv)) kvs)
  | JStr t => Ok (map (fun c => JStr [c]) t)
  | _ => Err TypeError
  end.

(** [if token.get("layout") in disabled: token["disabled"] = True] *)
Definition disable_token (disabled : list pystr) (token : json) : res json :=
  match token with
  | JObj kvs =>
      let hit := match dict_get str_eqb (s "layout") kvs with
                 | Some (JStr l) => str_in l disabled
                 | _ => false
                 end in
      Ok (if hit then json_set token (s "disabled") (JBool true) else token)
  | _ => Err AttributeError
  end.

(** The body of [disable_tokens] for one example.  The tokens are updated in
    place; an example without a [tokens] list is passed on as it is. *)
Definition disable_one (disabled : list pystr) (eg : json) : res json :=
  toks <- get_default eg (s "tokens") (JList []) ;;
  xs <- json_iter toks ;;
  xs' <- map_res (disable_token disabled) xs ;;
  match get eg (s "tokens") with
  | Ok (JList _) => Ok (json_set eg (s "tokens") (JList xs'))
  | _ => Ok eg
  end.

Definition disable_tokens (disabled : list pystr) (stream : list json)
  : list json * option pyexc :=
  stream_map (disable_one disabled) stream.

(** The body of [remove_preview] for one example. *)
Definition remove_preview_one (view_id : pystr) (eg : json) : res json :=
  config <- get_default eg (s "config") (JObj []) ;;
  has_blocks <- json_in (s "blocks") config ;;
  eg <- (if has_blocks then
           match config with
           | JObj ckvs =>
               Ok (json_set eg (s "config")
                     (JObj (dict_set str_eqb (s "blocks")
                              (JList [JObj [(s "view_id", JStr view_id)]]) ckvs)))
           | _ => Err TypeError
           end
         else Ok eg) ;;
  has_image <- json_in (s "image") eg ;;
  if has_image then json_del eg (s "image") else Ok eg.

Definition remove_preview (stream : list json) (view_id : pystr) : list json * option pyexc :=
  stream_map (remove_preview_one view_id) stream.

(** The [view_id] [pdf.spans.manual] returns. *)
Definition spans_manual_view_id (split_pages : bool) (focus : list pystr) : pystr :=
  if negb split_pages && match focus with [] => true | _ :: _ => false end
  then s "pages" else s "blocks".

(** The stream [pdf.spans.manual] returns, from the source stream; the
    spaCy NER preprocessing of [--add-ents] stays opaque. *)
Definition spans_manual_stream
    (ner_step : list json * option pyexc -> list json * option pyexc)
    (add_ents : bool) (disable : list pystr) (hide_preview : bool)
    (source : list json * option pyexc) : list json * option pyexc :=
  let view_id := s "spans_manual" in
  let st := if add_ents then ner_step source else source in
  let st := match disable with [] => st | _ :: _ => stream_apply (disable_one disable) st end in
  if hide_preview then stream_apply (remove_preview_one view_id) st else st.

(** The keys of a dictionary are distinct, as in every Python dict. *)
Definition keys_nodup (eg : json) : Prop :=
  match eg with JObj kvs => NoDup (map fst kvs) | _ => False end.

(** The token range of a layout span covers the doc index [i]. *)
Definition covers (sp : lspan) (i : nat) : Prop := sp_start sp <= i < sp_end sp.

(** The tasks a trace yields, in order. *)
Definition yields_of (evs : list event) : list json :=
  flat_map (fun e => match e with Yield t => [t] | _ => [] end) evs.

Definition is_yield (e : event) : bool := match e with Yield _ => true | _ => false end.
Definition is_ocr (e : event) : bool := match e with RunOcr _ => true | _ => false end.
Definition count_yield (evs : list event) : nat := List.length (filter is_yield evs).
Definition count_ocr (evs : list event) : nat := List.length (filter is_ocr evs).

(** The page dictionaries a [LayoutStream] task carries, in order. *)
Definition task_pages (t : ltask) : list lpage :=
  match t with
  | PageTask pg _ _ => [pg]
  | DocTask pgs _ => pgs
  | FocusTask pg _ _ _ => [pg]
  end.

(** One step of the outer loop of [get_token_labels]. *)
Definition label_span_step (acc : list (nat * pystr)) (sp : lspan) : list (nat * pystr) :=
  fold_left (fun acc i => dict_set Nat.eqb i (sp_label sp) acc)
            (seq (sp_start sp) (sp_end sp - sp_start sp)) acc.

(** The total length of the texts of the first [k] tokens. *)
Definition texts_before (toks : list (nat * token)) (k : nat) : nat :=
  List.length (List.concat (map (fun p => tok_text (snd p)) (firstn k toks))).


(** The tasks [get_focus_stream] yields for one page when the preview is
    hidden. *)
Definition focus_expected (d : ldoc) (focus : list pystr) (title : pystr)
    (p : page_layout * list lspan) : list ltask :=
  map (fun sp =>
         FocusTask {| pg_text := span_text d sp;
                      pg_tokens := get_layout_tokens (doc_slice d (sp_start sp) (sp_end sp))
                                     (get_token_labels d);
                      pg_width := pl_width (fst p); pg_height := pl_height (fst p);
                      pg_image := None |}
                   (sp_label sp) title (page_no (fst p)))
      (filter (fun sp => str_in (sp_label sp) focus) (snd p)).

(** The pixel box [page_to_cropped_image] crops for a region. *)
Definition crop_box (r : region Z) (scale : Z) : Z * Z * Z * Z :=
  (rx r * scale, ry r * scale, (rx r + rwidth r) * scale, (ry r + rheight r) * scale)%Z.

(* ================================================================== *)
(** * Proofs *)

Example fold_ocr_dashes_ex1 :
  fold_ocr_dashes (s "  an increas-
  ingly popular test-bed
 for tech-
niques. ") = s "an increasingly popular testfor techniques.".
Proof. vm_compute. reflexivity. Qed.

(** ** Python string primitives *)



Lemma lstrip_spec (xs : pystr) :
  exists pre, xs = pre ++ lstrip xs /\ all_space pre /\
    (lstrip xs = [] \/ exists c r, lstrip xs = c :: r /\ is_space c = false).
Proof.
  induction xs as [|c r IH]; simpl.
  - exists []. repeat split; auto. constructor.
  - case_eq (is_space c); intros Hc.
    + destruct IH as (pre & Hr & Hpre & Hl).
      exists (c :: pre). repeat split; auto.
      * simpl. now rewrite <- Hr.
      * now constructor.
    + exists []. repeat split; auto. constructor. right. eauto.
Qed.

Lemma rstrip_spec (xs : pystr) :
  exists suf, xs = rstrip xs ++ suf /\ all_space suf /\
    (rstrip xs = [] \/ exists r c, rstrip xs = r ++ [c] /\ is_space c = false).
Proof.
  destruct (lstrip_spec (rev xs)) as (pre & H & Hpre & Hl).
  exists (rev pre). unfold rstrip. repeat split.
  - rewrite <- rev_app_distr, <- H. now rewrite rev_involutive.
  - apply Forall_rev. exact Hpre.
  - destruct Hl as [-> | (c & r & -> & Hc)]; [left; reflexivity|].
    right. exists (rev r), c. split; auto.
Qed.

Lemma lstrip_nonspace (c : N) (r : pystr) :
  is_space c = false -> lstrip (c :: r) = c :: r.
Proof. intros H. simpl. now rewrite H. Qed.

Lemma lstrip_all_space (xs ys : pystr) :
  all_space xs -> lstrip (xs ++ ys) = lstrip ys.
Proof.
  induction 1 as [|c r Hc _ IH]; simpl; auto. now rewrite Hc.
Qed.

Lemma strip_trimmed (l : pystr) : trimmed_of l (strip l).
Proof.
  destruct (lstrip_spec l) as (pre & Hl & Hpre & Hls).
  destruct (rstrip_spec (lstrip l)) as (suf & Hr & Hsuf & Hrs).
  exists pre, suf. unfold strip. repeat split; auto.
  - rewrite Hl at 1. rewrite Hr at 1. reflexivity.
  - destruct Hrs as [Hrs | Hrs]; [left; exact Hrs|].
    destruct Hls as [Hls | (c & r & Hcr & Hc)].
    + rewrite Hls in Hrs. destruct Hrs as (r0 & c0 & H & _).
      unfold rstrip in H. simpl in H. destruct r0; discriminate.
    + right. split; auto.
      destruct (rstrip (lstrip l)) as [|d r'] eqn:E.
      * destruct Hrs as (r0 & c' & H & _). destruct r0; discriminate.
      * exists d, r'. split; auto.
        rewrite Hcr in Hr. simpl in Hr. inversion Hr. subst. exact Hc.
Qed.

Lemma trimmed_of_shape (l t : pystr) :
  trimmed_of l t ->
  t = [] \/ ((exists c r, t = c :: r /\ is_space c = false) /\
             (exists r c, t = r ++ [c] /\ is_space c = false)).
Proof. intros (pre & suf & _ & _ & _ & H). exact H. Qed.

Lemma strip_add_space (y : pystr) :
  (y = [] \/ ((exists c r, y = c :: r /\ is_space c = false) /\
              (exists r c, y = r ++ [c] /\ is_space c = false))) ->
  strip (y ++ [space]) = y.
Proof.
  intros [-> | ((c & r & Hy & Hc) & (r' & c' & Hy' & Hc'))].
  - reflexivity.
  - assert (E1 : lstrip (y ++ [space]) = y ++ [space])
      by (rewrite Hy; simpl; now rewrite Hc).
    unfold strip, rstrip. rewrite E1, rev_app_distr.
    change (lstrip ([space] ++ rev y)) with (lstrip (rev y)).
    rewrite Hy', rev_app_distr. simpl. rewrite Hc'.
    simpl. now rewrite rev_involutive.
Qed.

Lemma strip_of_shape (y : pystr) :
  (y = [] \/ ((exists c r, y = c :: r /\ is_space c = false) /\
              (exists r c, y = r ++ [c] /\ is_space c = false))) ->
  strip y = y.
Proof.
  intros [-> | ((c & r & Hy & Hc) & (r' & c' & Hy' & Hc'))]; [reflexivity|].
  unfold strip, rstrip. rewrite Hy at 1. rewrite lstrip_nonspace by exact Hc.
  rewrite <- Hy, Hy', rev_app_distr. simpl. rewrite Hc'. simpl.
  now rewrite rev_involutive.
Qed.

Lemma strip_sub (c : N) (l : pystr) : In c (strip l) -> In c l.
Proof.
  intros H. destruct (strip_trimmed l) as (pre & suf & E & _).
  rewrite E. apply in_or_app. right. apply in_or_app. now left.
Qed.

(** [str.rfind] *)

Lemma rfind_from_notin (c : N) (xs : pystr) (i acc : Z) :
  ~ In c xs -> rfind_from c xs i acc = acc.
Proof.
  revert i acc. induction xs as [|x r IH]; intros i acc H; simpl; auto.
  destruct (N.eqb_spec x c) as [-> | _].
  - exfalso. apply H. now left.
  - apply IH. intros Hr. apply H. now right.
Qed.

Lemma rfind_from_app (c : N) (a b : pystr) (i acc : Z) :
  rfind_from c (a ++ b) i acc =
  rfind_from c b (i + Z.of_nat (List.length a)) (rfind_from c a i acc).
Proof.
  revert i acc. induction a as [|x r IH]; intros i acc; simpl.
  - now rewrite Z.add_0_r.
  - rewrite IH. f_equal. lia.
Qed.

Lemma rfind_last (p q : pystr) :
  ~ In dash q -> rfind dash (p ++ dash :: q) = Z.of_nat (List.length p).
Proof.
  intros Hq. unfold rfind. rewrite rfind_from_app. cbn [rfind_from].
  rewrite N.eqb_refl, rfind_from_notin by exact Hq. lia.
Qed.

Lemma rfind_from_in (c : N) (xs : pystr) (i acc : Z) :
  In c xs -> (i <= rfind_from c xs i acc)%Z.
Proof.
  revert i acc. induction xs as [|x r IH]; intros i acc H; [destruct H|].
  simpl. destruct (in_dec N.eq_dec c r) as [Hr | Hr].
  - specialize (IH (i + 1)%Z (if (x =? c)%N then i else acc) Hr). lia.
  - destruct H as [-> | H]; [|contradiction].
    rewrite N.eqb_refl, rfind_from_notin by exact Hr. lia.
Qed.

(** [str.split] *)

Lemma split_on_cons (sep : N) (xs : pystr) :
  exists w ws, split_on sep xs = w :: ws.
Proof.
  destruct xs as [|c r]; simpl; [eauto|].
  destruct (c =? sep)%N; [eauto|]. destruct (split_on sep r); eauto.
Qed.

Lemma join_split (sep : N) (xs : pystr) :
  join_with [sep] (split_on sep xs) = xs.
Proof.
  induction xs as [|c r IH]; [reflexivity|]. cbn [split_on].
  destruct (split_on_cons sep r) as (w & ws & E).
  assert (Hc : forall x, join_with [sep] ((x :: w) :: ws) = x :: join_with [sep] (w :: ws))
    by (intros x; destruct ws; reflexivity).
  destruct (N.eqb_spec c sep) as [-> | _]; rewrite E.
  - change (join_with [sep] ([] :: w :: ws)) with ([sep] ++ join_with [sep] (w :: ws)).
    now rewrite <- E, IH.
  - now rewrite Hc, <- E, IH.
Qed.

Lemma split_no_sep (sep : N) (xs : pystr) :
  Forall (fun w => ~ In sep w) (split_on sep xs).
Proof.
  induction xs as [|c r IH]; simpl.
  - repeat constructor. simpl. tauto.
  - destruct (N.eqb_spec c sep) as [-> | Hc].
    + constructor; auto.
    + destruct (split_on sep r) as [|w ws].
      * constructor; [|constructor]. simpl. intros [H|H]; auto.
      * inversion IH; subst. constructor; auto.
        simpl. intros [H|H]; auto.
Qed.

Lemma split_notin (sep : N) (xs : pystr) :
  ~ In sep xs -> split_on sep xs = [xs].
Proof.
  induction xs as [|c r IH]; intros H; simpl; auto.
  destruct (N.eqb_spec c sep) as [-> | _].
  - exfalso. apply H. now left.
  - rewrite IH; auto. intros Hr. apply H. now right.
Qed.

Lemma fold_left_fold_step (ls : list pystr) (acc : pystr) :
  fold_left fold_step ls acc = acc ++ List.concat (map fold_line ls).
Proof.
  revert acc. induction ls as [|l ls IH]; intros acc; simpl.
  - now rewrite app_nil_r.
  - rewrite IH. unfold fold_step. now rewrite app_assoc.
Qed.

Lemma fold_ocr_dashes_eq (raw : pystr) :
  fold_ocr_dashes raw = strip (List.concat (map fold_line (split_on nl raw))).
Proof. unfold fold_ocr_dashes. now rewrite fold_left_fold_step. Qed.

Lemma fold_line_no_hyphen (line : pystr) :
  ~ In dash (strip line) -> fold_line line = strip line ++ [space].
Proof.
  intros H. unfold fold_line, rfind. now rewrite rfind_from_notin by exact H.
Qed.

Lemma fold_line_last_hyphen (line p q : pystr) :
  strip line = p ++ dash :: q -> ~ In dash q -> fold_line line = p.
Proof.
  intros E Hq. unfold fold_line. rewrite E, rfind_last by exact Hq.
  destruct (Z.eqb_spec (Z.of_nat (List.length p)) (-1)) as [H | _]; [lia|].
  unfold slice_to. rewrite length_app. simpl List.length.
  destruct (Z.ltb_spec (Z.of_nat (List.length p)) 0) as [H | _]; [lia|].
  replace (Z.to_nat (Z.min (Z.of_nat (List.length p))
             (Z.of_nat (List.length p + S (List.length q)))))
    with (List.length p) by lia.
  rewrite firstn_app, firstn_all, Nat.sub_diag. simpl. apply app_nil_r.
Qed.

Lemma slice_to_sub (c : N) (xs : pystr) (i : Z) : In c (slice_to xs i) -> In c xs.
Proof.
  unfold slice_to. intros H. rewrite <- (firstn_skipn (Z.to_nat
    (if (i <? 0)%Z then Z.max 0 (Z.of_nat (List.length xs) + i)
     else Z.min i (Z.of_nat (List.length xs)))) xs).
  apply in_or_app. now left.
Qed.

Lemma fold_line_sub (c : N) (w : pystr) : In c (fold_line w) -> In c w \/ c = space.
Proof.
  unfold fold_line. destruct (rfind dash (strip w) =? -1)%Z; intros H.
  - apply in_app_or in H as [H | [H | []]]; [left; now apply strip_sub | now right].
  - left. apply strip_sub. eapply slice_to_sub. exact H.
Qed.

(** ** C2, C3: [fold_ocr_dashes] *)

(** C2: [fold_ocr_dashes] is exactly the documented transform.  The input is
    split on single newline characters (the pieces rejoined with newlines give
    the input back and contain no newline); each piece is stripped of leading
    and trailing whitespace; a stripped line without a hyphen contributes
    itself plus one space; a stripped line [p ++ "-" ++ q] whose last hyphen is
    the one shown contributes [p]; the contributions are concatenated with no
    separator and the result is stripped.  The function is total and maps the
    empty string to the empty string. *)
Theorem fold_ocr_dashes_spec :
  (forall raw, fold_ocr_dashes raw = strip (List.concat (map fold_line (split_on nl raw))))
  /\ (forall raw, join_with [nl] (split_on nl raw) = raw
                  /\ Forall (fun l => ~ In nl l) (split_on nl raw))
  /\ (forall line, trimmed_of line (strip line))
  /\ (forall line, ~ In dash (strip line) -> fold_line line = strip line ++ [space])
  /\ (forall line p q, strip line = p ++ dash :: q -> ~ In dash q -> fold_line line = p)
  /\ fold_ocr_dashes [] = [].
Proof.
  repeat split.
  - apply fold_ocr_dashes_eq.
  - apply join_split.
  - apply split_no_sep.
  - apply strip_trimmed.
  - apply fold_line_no_hyphen.
  - apply fold_line_last_hyphen.
Qed.

Lemma fold_ocr_dashes_shape (x : pystr) :
  fold_ocr_dashes x = [] \/
  ((exists c r, fold_ocr_dashes x = c :: r /\ is_space c = false) /\
   (exists r c, fold_ocr_dashes x = r ++ [c] /\ is_space c = false)).
Proof. unfold fold_ocr_dashes. eapply trimmed_of_shape, strip_trimmed. Qed.

Lemma fold_ocr_dashes_no_newline (x : pystr) : ~ In nl (fold_ocr_dashes x).
Proof.
  rewrite fold_ocr_dashes_eq. intros H. apply strip_sub in H.
  apply in_concat in H as (l & Hl & H). apply in_map_iff in Hl as (w & <- & Hw).
  apply fold_line_sub in H as [H | H]; [|discriminate].
  pose proof (split_no_sep nl x) as Hs. rewrite Forall_forall in Hs.
  exact (Hs w Hw H).
Qed.

(** C3: folding is idempotent on folded text without hyphens, and every
    output ends in a non-whitespace character (or is empty) and contains no
    newline character. *)
Theorem fold_ocr_dashes_idempotent_clean :
  (forall x, ~ In dash (fold_ocr_dashes x) ->
             fold_ocr_dashes (fold_ocr_dashes x) = fold_ocr_dashes x)
  /\ (forall x, fold_ocr_dashes x = [] \/
                exists r c, fold_ocr_dashes x = r ++ [c] /\ is_space c = false)
  /\ (forall x, ~ In nl (fold_ocr_dashes x)).
Proof.
  split; [|split].
  - intros x Hd. set (y := fold_ocr_dashes x) in *.
    assert (Hy : strip y = y) by (apply strip_of_shape, fold_ocr_dashes_shape).
    unfold fold_ocr_dashes at 1.
    rewrite split_notin by apply fold_ocr_dashes_no_newline. simpl.
    unfold fold_step. simpl. rewrite fold_line_no_hyphen by now rewrite Hy.
    rewrite Hy. apply strip_add_space. apply fold_ocr_dashes_shape.
  - intros x. destruct (fold_ocr_dashes_shape x) as [E | (_ & E)]; auto.
  - apply fold_ocr_dashes_no_newline.
Qed.

(** ** C1: the layout token offsets *)




(** C1 (code bug): the offsets advance by each token's text only and skip
    the space that follows a token, although the task text contains it.  On
    the one-span page "Hello world" the tokens get the offsets [0,5) and
    [5,10), the text has length 11 and [5,10) holds " worl": in full-page
    mode and in focus mode alike. *)
Theorem layout_offsets_skip_whitespace :
  (exists pg,
     get_stream (fun _ => hello_doc) (fun _ => []) (fun _ => 1%nat) true true []
       [hello_path] = ([PageTask pg (s "hello") 1], None)
     /\ pg_text pg = s "Hello world"
     /\ map (fun t => (lt_start t, lt_end t)) (pg_tokens pg) = [(0, 5); (5, 10)]
     /\ ~ offsets_index_text pg)
  /\
  (exists pg,
     get_stream (fun _ => hello_doc) (fun _ => []) (fun _ => 1%nat) false true [s "text"]
       [hello_path] = ([FocusTask pg (s "text") (s "hello") 1], None)
     /\ pg_text pg = s "Hello world"
     /\ map (fun t => (lt_start t, lt_end t)) (pg_tokens pg) = [(0, 5); (5, 10)]
     /\ ~ offsets_index_text pg).
Proof.
  split; eexists; split; [vm_compute; reflexivity| |vm_compute; reflexivity|];
    (split; [vm_compute; reflexivity|]); (split; [vm_compute; reflexivity|]);
    intros [_ H]; vm_compute in H; discriminate.
Qed.

(** What does hold of the offsets: every token spans its own length and
    starts where the previous one ends. *)
Lemma layout_tokens_from_contiguous (labels : list (nat * pystr)) (toks : list (nat * token))
    (i offset : nat) :
  let ts := layout_tokens_from labels toks i offset in
  Forall (fun t => lt_start t <= lt_end t /\ lt_end t - lt_start t = List.length (lt_text t)) ts
  /\ (forall k t t', nth_error ts k = Some t -> nth_error ts (S k) = Some t' ->
                     lt_end t = lt_start t')
  /\ (forall t, nth_error ts 0 = Some t -> lt_start t = offset).
Proof.
  revert i offset. induction toks as [|[ti t] r IH]; intros i offset; simpl.
  - repeat split; [constructor| intros [|k]; discriminate | discriminate].
  - destruct (IH (S i) (offset + List.length (tok_text t))) as (H1 & H2 & H3).
    repeat split.
    + constructor; [simpl; lia | exact H1].
    + intros [|k] t1 t2 E1 E2; simpl in E1, E2.
      * inversion E1; subst. simpl. symmetry. now apply H3.
      * exact (H2 k t1 t2 E1 E2).
    + intros t1 E. now inversion E.
Qed.

(** ** Dictionaries *)

Lemma str_eqb_spec (a b : pystr) : str_eqb a b = true <-> a = b.
Proof.
  revert b. induction a as [|x a IH]; intros [|y b]; simpl; split; intros H;
    try discriminate; try reflexivity.
  - apply andb_prop in H as [H1 H2]. apply N.eqb_eq in H1. apply IH in H2. now subst.
  - inversion H; subst. rewrite N.eqb_refl. simpl. now apply IH.
Qed.

Lemma str_eqb_refl (a : pystr) : str_eqb a a = true.
Proof. now apply str_eqb_spec. Qed.

Lemma dict_get_set {V : Type} (k k' : pystr) (v : V) (d : list (pystr * V)) :
  dict_get str_eqb k (dict_set str_eqb k' v d) =
  if str_eqb k k' then Some v else dict_get str_eqb k d.
Proof.
  induction d as [|[k0 v0] d IH]; simpl.
  - reflexivity.
  - destruct (str_eqb k' k0) eqn:E1.
    + apply str_eqb_spec in E1. subst k0. simpl. now destruct (str_eqb k k').
    + simpl. rewrite IH. destruct (str_eqb k k0) eqn:E2; auto.
      apply str_eqb_spec in E2. subst k0.
      destruct (str_eqb k k') eqn:E3; auto.
      apply str_eqb_spec in E3. subst. now rewrite str_eqb_refl in E1.
Qed.

(** ** C4: the crop box *)

(** C4: [page_to_cropped_image] crops the image it is given at exactly the box
    [(x*scale, y*scale, (x+width)*scale, (y+height)*scale)], whatever the
    number type, the image and the region (inside the image or not): the box
    is computed from the region and the scale alone and never clamped. *)
Theorem page_to_cropped_image_box :
  forall (Num : Type) (add mul : Num -> Num -> Num) (Img Buf : Type)
         (crop : Img -> Num * Num * Num * Num -> Img) (save_jpeg : Img -> Buf)
         (b64encode : Buf -> pystr) (pil_page : Img) (span : region Num) (scale : Num),
  let box := (mul (rx span) scale, mul (ry span) scale,
              mul (add (rx span) (rwidth span)) scale,
              mul (add (ry span) (rheight span)) scale) in
  page_to_cropped_image Num add mul Img Buf crop save_jpeg b64encode pil_page span scale =
  (crop pil_page box, data_uri_prefix ++ b64encode (save_jpeg (crop pil_page box))).
Proof. intros. reflexivity. Qed.

Example crop_out_of_bounds :
  crop_annot (fun _ => []) 3 (Rendered (s "a.pdf") 0 3)
    (JObj [(s "x", JInt 5000); (s "y", JInt (-20)); (s "width", JInt 10); (s "height", JInt 10)])
  = Ok (Cropped (Rendered (s "a.pdf") 0 3) (15000, -60, 15030, -30)%Z, data_uri_prefix).
Proof. reflexivity. Qed.

(** ** C9: the data URIs of rendered pages *)

Lemma data_uri_media_prefix (x : pystr) :
  data_uri_media (data_uri_prefix ++ x) = Some (s "image/png").
Proof. reflexivity. Qed.

(** C9 (code bug): [page_to_image] and [pdf_to_images] write the page as JPEG
    but the data URI they return declares the media type [image/png]. *)
Theorem page_to_image_declares_png :
  forall (b64encode : encoded -> pystr) (path : pystr),
  (forall page_number,
     page_to_image b64encode path page_number
       = data_uri_prefix ++ b64encode (pil_save (Rendered path page_number 1) JPEG)
     /\ data_uri_media (page_to_image b64encode path page_number) = Some (s "image/png")
     /\ enc_format (pil_save (Rendered path page_number 1) JPEG) = JPEG)
  /\ (forall n uri, In uri (pdf_to_images b64encode path n) ->
       exists k, uri = data_uri_prefix ++ b64encode (pil_save (Rendered path k 1) JPEG)
                 /\ data_uri_media uri = Some (s "image/png"))
  /\ mime_of JPEG <> s "image/png".
Proof.
  intros b64encode path. split; [|split].
  - intros k. repeat split.
  - intros n uri H. unfold pdf_to_images in H. apply in_map_iff in H as (k & <- & _).
    exists (Z.of_nat k). split; [reflexivity|]. apply data_uri_media_prefix.
  - discriminate.
Qed.

(** ** C5: missing and empty source folders *)

Lemma sort_entries_in (e : pystr * entry_kind) (es : list (pystr * entry_kind)) :
  In e (sort_entries es) -> In e es.
Proof.
  induction es as [|e' es IH]; simpl; [tauto|].
  assert (Hins : forall l, In e (insert_sorted e' l) -> e = e' \/ In e l).
  { induction l as [|x l IHl]; simpl; intros H.
    - destruct H as [H | []]. left. now symmetry.
    - destruct (str_leb (fst e') (fst x)); simpl in H.
      + destruct H as [H | H]; [left; now symmetry | right; exact H].
      + destruct H as [H | H]; [right; now left|].
        destruct (IHl H); [now left | right; now right]. }
  intros H. destruct (Hins _ H) as [-> | H']; [now left | right; now apply IH].
Qed.

Lemma layout_stream_paths_none (f : pystr) (entries : list (pystr * entry_kind))
    (file_ext : list pystr) :
  Forall (fun e => layout_entry_ok file_ext e = false) entries ->
  layout_stream_paths f (Directory entries) file_ext = Ok [].
Proof.
  intros H. unfold layout_stream_paths.
  enough (E : filter (layout_entry_ok file_ext) (sort_entries entries) = []) by now rewrite E.
  rewrite Forall_forall in H.
  destruct (filter (layout_entry_ok file_ext) (sort_entries entries)) as [|e r] eqn:E; auto.
  assert (He : In e (filter (layout_entry_ok file_ext) (sort_entries entries)))
    by (rewrite E; now left).
  apply filter_In in He as [He1 He2]. apply sort_entries_in in He1.
  now rewrite H in He2.
Qed.

(** C5, a code bug: [pdf.image.manual] ends a run on a missing folder with
    [SystemExit(1)] and the message "Folder `...` does not exist.", but on an
    existing folder without [*.pdf] entries it only prints "Did not find any
    .pdf files in folder." ([msg.fail] without [exits=True], unlike the check
    just before it) and goes on to return its components, with a stream that
    holds no task: the run is not terminated.  [LayoutStream] raises a
    [RecipeError] for a missing path or a path that is not a folder, but a
    folder without matching files gives no path, an empty stream and no
    failure at all. *)
Theorem empty_source_folder_continues :
  forall (b64encode : encoded -> pystr) (n_pages : fpath -> nat)
         (input_hash task_hash : json -> Z)
         (dataset folder labels : pystr) (remove_base64 split_pages : bool),
  pdf_image_manual b64encode n_pages input_hash task_hash dataset folder Missing labels
    remove_base64 split_pages = ([msg_folder_missing folder], Err (SystemExit 1))
  /\ msg_folder_missing folder <> msg_no_pdfs
  /\ (forall node colors, node <> Missing -> glob_pdf folder node = [] ->
        label_colors labels = Ok colors ->
        exists c, pdf_image_manual b64encode n_pages input_hash task_hash dataset folder node
                    labels remove_base64 split_pages = ([msg_no_pdfs], Ok c)
                  /\ ic_stream c = [])
  /\ (forall file_ext, exists m,
        layout_stream_paths folder Missing file_ext = Err (RecipeError m)
        /\ layout_stream_paths folder RegularFile file_ext = Err (RecipeError m))
  /\ (forall entries file_ext,
        Forall (fun e => layout_entry_ok file_ext e = false) entries ->
        layout_stream_paths folder (Directory entries) file_ext = Ok []
        /\ forall layout b64 np sp hp focus, get_stream layout b64 np sp hp focus [] = ([], None)).
Proof.
  intros. split; [reflexivity|]. split; [|split; [|split]].
  - unfold msg_folder_missing. simpl. discriminate.
  - intros node colors Hn Hg Hc.
    destruct node; [contradiction| |]; unfold pdf_image_manual; rewrite Hg, Hc;
      eexists; split; reflexivity.
  - intros file_ext. eexists. split; reflexivity.
  - intros entries file_ext H. split; [now apply layout_stream_paths_none|].
    intros layout b64 np sp hp focus. unfold get_stream. destruct focus; reflexivity.
Qed.

(** ** C6: label colours *)

Lemma label_colors_from_ok (labs : list pystr) (i : nat) (acc : list (pystr * pystr)) :
  i + List.length labs <= List.length palette ->
  exists d, label_colors_from i labs acc = Ok d
    /\ (forall lab, (forall j, nth_error labs j <> Some lab) ->
                    dict_get str_eqb lab d = dict_get str_eqb lab acc)
    /\ (forall j lab, nth_error labs j = Some lab ->
                      (forall j', j < j' -> nth_error labs j' <> Some lab) ->
                      dict_get str_eqb lab d = nth_error palette (i + j)).
Proof.
  assert (Hp : List.length palette = 14) by reflexivity. rewrite Hp.
  revert i acc. induction labs as [|l r IH]; intros i acc Hlen; simpl in Hlen.
  - exists acc. split; [reflexivity|]. split; [auto|]. intros [|j] lab H; discriminate.
  - destruct (nth_error palette i) as [c|] eqn:Ec;
      [|apply nth_error_None in Ec; lia].
    destruct (IH (S i) (dict_set str_eqb l c acc)) as (d & Hd & H1 & H2); [lia|].
    exists d. simpl. rewrite Ec. split; [exact Hd|]. split.
    + intros lab Hn. rewrite H1 by (intros j; exact (Hn (S j))).
      rewrite dict_get_set. destruct (str_eqb lab l) eqn:E; auto.
      apply str_eqb_spec in E. subst. exfalso. exact (Hn 0 eq_refl).
    + intros [|j] lab Hj Hlast; simpl in Hj.
      * inversion Hj; subst lab. rewrite H1.
        -- rewrite dict_get_set, str_eqb_refl, Nat.add_0_r. now symmetry.
        -- intros j Hj'. exact (Hlast (S j) ltac:(lia) Hj').
      * rewrite (H2 j lab Hj). { f_equal. lia. }
        intros j' Hj' E. exact (Hlast (S j') ltac:(lia) E).
Qed.

Lemma label_colors_from_overflow (labs : list pystr) (i : nat) (acc : list (pystr * pystr)) :
  i <= List.length palette -> List.length palette < i + List.length labs ->
  label_colors_from i labs acc = Err IndexError.
Proof.
  revert i acc. induction labs as [|l r IH]; intros i acc Hi Hlen;
    cbn [List.length label_colors_from] in Hlen |- *; [lia|].
  destruct (nth_error palette i) eqn:Ec; [|reflexivity].
  assert (i < List.length palette) by (apply nth_error_Some; congruence).
  apply IH; lia.
Qed.



(** C6 as stated fails: with 15 labels there is no 15th colour to cycle to;
    [color[14]] raises [IndexError] and the recipe fails. *)
Lemma label_colors_counterexample :
  List.length (split_on comma fifteen_labels) = 15
  /\ snd (pdf_image_manual (fun _ => []) (fun _ => 1%nat) (fun _ => 0%Z) (fun _ => 0%Z)
            (s "ds") (s "pdfs") one_pdf_folder fifteen_labels false false) = Err IndexError.
Proof. split; reflexivity. Qed.

(** C6, amended: on an existing folder, with at most 14 comma-separated
    labels the recipe gives each label the palette colour of its position
    (the position of its last occurrence when a label repeats); with more than
    14 labels it raises [IndexError]: the palette is not cycled. *)
Theorem label_colors_by_position :
  forall (b64encode : encoded -> pystr) (n_pages : fpath -> nat)
         (input_hash task_hash : json -> Z)
         (dataset folder labels : pystr) (node : fs_node) (remove_base64 split_pages : bool),
  node <> Missing ->
  let labs := split_on comma labels in
  let out := snd (pdf_image_manual b64encode n_pages input_hash task_hash dataset folder node
                    labels remove_base64 split_pages) in
  (List.length labs <= 14 ->
     exists c, out = Ok c /\ ic_labels c = labs
       /\ forall i lab, nth_error labs i = Some lab ->
                        (forall j, i < j -> nth_error labs j <> Some lab) ->
                        dict_get str_eqb lab (ic_label_colors c) = nth_error palette i)
  /\ (14 < List.length labs -> out = Err IndexError).
Proof.
  intros b64encode n_pages input_hash task_hash dataset folder labels node rb sp Hn labs out.
  assert (E : out = (colors <- label_colors labels ;;
                 Ok {| ic_dataset := dataset;
                       ic_stream := generate_pdf_pages b64encode n_pages input_hash task_hash
                                      (glob_pdf folder node) sp;
                       ic_before_db := if rb then Some before_db_image else None;
                       ic_view_id := s "image_manual"; ic_labels := labs;
                       ic_label_colors := colors |})).
  { subst out. destruct node; [contradiction| |]; reflexivity. }
  rewrite E. unfold label_colors. fold labs. split.
  - intros Hlen. destruct (label_colors_from_ok labs 0 [] Hlen) as (d & Hd & _ & H2).
    rewrite Hd. simpl. eexists. split; [reflexivity|]. split; [reflexivity|].
    intros i lab Hi Hlast. simpl. exact (H2 i lab Hi Hlast).
  - intros Hlen. rewrite label_colors_from_overflow; [reflexivity| simpl; lia | simpl; lia].
Qed.

(** ** C10: [before_db] of [pdf.image.manual] on bundled documents *)

Lemma before_db_image_no_image (eg : json) (rest : list json) :
  (exists kvs, eg = JObj kvs /\ dict_get str_eqb (s "image") kvs = None) ->
  before_db_image (eg :: rest) = Err (KeyError (s "image")).
Proof.
  intros (kvs & -> & H). unfold before_db_image. simpl.
  unfold before_db_image_one, strip_image, get. rewrite H. reflexivity.
Qed.

Lemma generate_pdf_pages_bundles (b64encode : encoded -> pystr) (n_pages : fpath -> nat)
    (input_hash task_hash : json -> Z) (paths : list fpath) (t : json) :
  In t (generate_pdf_pages b64encode n_pages input_hash task_hash paths false) ->
  exists kvs, t = JObj kvs /\ dict_get str_eqb (s "image") kvs = None
              /\ dict_get str_eqb (s "pages") kvs <> None.
Proof.
  unfold generate_pdf_pages. intros H. apply in_flat_map in H as (p & _ & [<- | []]).
  eexists. split; [reflexivity|].
  rewrite !dict_get_set. split; [reflexivity | discriminate].
Qed.

Lemma pdf_image_manual_ok (b64encode : encoded -> pystr) (n_pages : fpath -> nat)
    (input_hash task_hash : json -> Z) (dataset folder labels : pystr) (node : fs_node)
    (remove_base64 split_pages : bool) (c : image_components) :
  snd (pdf_image_manual b64encode n_pages input_hash task_hash dataset folder node labels
         remove_base64 split_pages) = Ok c ->
  ic_stream c = generate_pdf_pages b64encode n_pages input_hash task_hash
                  (glob_pdf folder node) split_pages
  /\ ic_before_db c = (if remove_base64 then Some before_db_image else None).
Proof.
  intros H. destruct node; [discriminate H| |];
    unfold pdf_image_manual in H; simpl in H;
    destruct (label_colors labels); simpl in H; inversion H; subst; split; reflexivity.
Qed.

(** C10: with [remove_base64] set and [split_pages] unset, [before_db] reads
    [eg["image"]] of every example; the recipe's tasks are bundled documents
    with a [pages] list and no [image] key, so [before_db] raises
    [KeyError('image')] on any batch that starts with one of them. *)
Theorem before_db_bundled_key_error :
  forall (b64encode : encoded -> pystr) (n_pages : fpath -> nat)
         (input_hash task_hash : json -> Z)
         (dataset folder labels : pystr) (node : fs_node) (c : image_components),
  snd (pdf_image_manual b64encode n_pages input_hash task_hash dataset folder node labels
         true false) = Ok c ->
  exists f, ic_before_db c = Some f
    /\ (forall eg rest, (exists kvs, eg = JObj kvs /\ dict_get str_eqb (s "image") kvs = None) ->
                        f (eg :: rest) = Err (KeyError (s "image")))
    /\ (forall t rest, In t (ic_stream c) ->
          (exists kvs, t = JObj kvs /\ dict_get str_eqb (s "image") kvs = None
                       /\ dict_get str_eqb (s "pages") kvs <> None)
          /\ f (t :: rest) = Err (KeyError (s "image"))).
Proof.
  intros b64encode n_pages input_hash task_hash dataset folder labels node c H.
  apply pdf_image_manual_ok in H as [Hs Hb]. exists before_db_image.
  split; [exact Hb|]. split; [apply before_db_image_no_image|].
  intros t rest Ht. rewrite Hs in Ht.
  apply generate_pdf_pages_bundles in Ht as Hk. split; [exact Hk|].
  apply before_db_image_no_image. destruct Hk as (kvs & E & H1 & _). eauto.
Qed.

(** ** C7: documents are opened lazily, once per task *)

Lemma tbind_Forall {A B : Type} (P : event -> Prop) (m : traced A) (k : A -> traced B) :
  Forall P (fst m) -> (forall a, Forall P (fst (k a))) -> Forall P (fst (tbind m k)).
Proof.
  destruct m as [evs [a|e]]; simpl; intros H1 H2; auto.
  specialize (H2 a). destruct (k a) as [evs' r']. simpl in *. now apply Forall_app.
Qed.

Lemma titer_Forall {A : Type} (P : event -> Prop) (f : A -> traced unit) (xs : list A) :
  (forall x, Forall P (fst (f x))) -> Forall P (fst (titer f xs)).
Proof.
  intros H. induction xs as [|x r IH]; simpl; [constructor|].
  apply tbind_Forall; auto.
Qed.


Lemma process_annot_events (b64encode : encoded -> pystr) (ocr : pil_image -> pystr)
    (input_hash task_hash : json -> Z) (labels : list pystr) (scale : Z)
    (fold_dashes autofocus : bool) (ex : json) (pil_page : pil_image) (annot : json) :
  Forall no_open_render
    (fst (process_annot b64encode ocr input_hash task_hash scale fold_dashes autofocus
            ex pil_page annot)).
Proof.
  unfold process_annot. apply tbind_Forall; [constructor|]. intros [cropped img_str].
  apply tbind_Forall; [repeat constructor|]. intros _.
  apply tbind_Forall; [constructor|]. intros meta.
  apply tbind_Forall; [constructor|]. intros annot'.
  repeat constructor.
Qed.

Lemma count_no_open_render (evs : list event) :
  Forall no_open_render evs -> count_open evs = 0 /\ count_render evs = 0.
Proof.
  induction 1 as [|e r [H1 H2] _ [IH1 IH2]]; [split; reflexivity|].
  unfold count_open, count_render in *. simpl. now rewrite H1, H2, IH1, IH2.
Qed.

Lemma filter_res_in {A : Type} (p : A -> res bool) (xs ys : list A) (y : A) :
  filter_res p xs = Ok ys -> In y ys -> In y xs /\ p y = Ok true.
Proof.
  revert ys. induction xs as [|x r IH]; intros ys H Hy; simpl in H.
  - inversion H; subst. destruct Hy.
  - destruct (p x) as [b|e] eqn:Ep; simpl in H; [|discriminate].
    destruct (filter_res p r) as [zs|e] eqn:Er; simpl in H; [|discriminate].
    inversion H; subst. destruct b.
    + destruct Hy as [<- | Hy]; [split; [now left | exact Ep]|].
      destruct (IH zs eq_refl Hy). split; [now right | auto].
    + destruct (IH zs eq_refl Hy). split; [now right | auto].
Qed.

Lemma useful_spans_labelled (labels : list pystr) (ex sp : json) (us : list json) :
  useful_spans labels ex = Ok (sp :: us) -> has_labelled_span labels ex.
Proof.
  unfold useful_spans. intros H.
  destruct (get_default ex (s "spans") (JList [])) as [v|e] eqn:Eg; simpl in H; [|discriminate].
  destruct v; try discriminate.
  destruct (filter_res_in _ _ _ sp H (or_introl eq_refl)) as [Hin Hu].
  unfold span_is_useful in Hu.
  destruct (get sp (s "label")) as [l|e] eqn:El; simpl in Hu; [|discriminate].
  destruct l; try discriminate. inversion Hu as [Hs].
  unfold str_in in Hs. apply existsb_exists in Hs as (l' & Hl' & E).
  apply str_eqb_spec in E. subst l'.
  exists xs, sp, v. repeat split; auto.
Qed.

Lemma process_task_events (b64encode : encoded -> pystr) (ocr : pil_image -> pystr)
    (input_hash task_hash : json -> Z) (labels : list pystr) (scale : Z)
    (fold_dashes autofocus : bool) (ex : json) :
  let evs := fst (process_task b64encode ocr input_hash task_hash labels scale fold_dashes
                    autofocus ex) in
  evs = []
  \/ exists sp us path rest,
       useful_spans labels ex = Ok (sp :: us)
       /\ (evs = [OpenDoc path]
           \/ exists page, evs = [OpenDoc path; RenderPage path page scale] ++ rest)
       /\ Forall no_open_render rest.
Proof.
  unfold process_task, tlift, emit, tret.
  destruct (useful_spans labels ex) as [[|sp us]|e] eqn:U; cbn -[titer s]; auto.
  destruct (get ex (s "path")) as [p|e]; cbn -[titer s]; auto.
  destruct (as_str p) as [path|e]; cbn -[titer s]; auto.
  right. exists sp, us, path.
  destruct (get ex (s "meta")) as [meta|e]; cbn -[titer s];
    [|exists []; split; [reflexivity|]; split; [now left | constructor]].
  destruct (get meta (s "page")) as [pg|e]; cbn -[titer s];
    [|exists []; split; [reflexivity|]; split; [now left | constructor]].
  destruct (as_int pg) as [page|e]; cbn -[titer s];
    [|exists []; split; [reflexivity|]; split; [now left | constructor]].
  pose proof (titer_Forall no_open_render
                (process_annot b64encode ocr input_hash task_hash scale fold_dashes autofocus ex
                   (Rendered path page scale)) (sp :: us)
                (process_annot_events b64encode ocr input_hash task_hash labels scale
                   fold_dashes autofocus ex (Rendered path page scale))) as HF.
  destruct (titer (process_annot b64encode ocr input_hash task_hash scale fold_dashes
                     autofocus ex (Rendered path page scale)) (sp :: us)) as [evs r].
  cbn -[titer s] in *. exists evs. split; [reflexivity|]. split; [right; exists page; reflexivity | exact HF].
Qed.

(** C7: in [pdf.ocr.correct], the work [new_stream] does for one task opens
    the task's PDF at most once and renders its page at most once, and does
    either only when the task has a span whose label is among [labels]. *)
Theorem ocr_document_opened_once :
  forall (b64encode : encoded -> pystr) (ocr : pil_image -> pystr)
         (input_hash task_hash : json -> Z) (labels : list pystr) (scale : Z)
         (fold_dashes autofocus : bool) (ex : json),
  let evs := fst (process_task b64encode ocr input_hash task_hash labels scale fold_dashes
                    autofocus ex) in
  count_open evs <= 1 /\ count_render evs <= 1
  /\ (0 < count_open evs + count_render evs -> has_labelled_span labels ex).
Proof.
  intros. subst evs.
  destruct (process_task_events b64encode ocr input_hash task_hash labels scale fold_dashes
              autofocus ex) as [E | (sp & us & path & rest & U & Hevs & HF)];
    rewrite ?E; [cbn; lia|].
  apply count_no_open_render in HF as [H1 H2].
  destruct Hevs as [E | (page & E)]; rewrite E; unfold count_open, count_render in *;
    rewrite ?filter_app, ?length_app; cbn; rewrite ?H1, ?H2;
    (split; [lia|split; [lia|]]); intros _; eapply useful_spans_labelled; exact U.
Qed.

(** ** C8: provenance validation in [pdf.ocr.correct] *)

Lemma validate_ocr_one_missing (ex : json) (key : pystr) :
  missing_key ex key ->
  exists key' msg, validate_ocr_one ex = Err (ValueError msg) /\ missing_key ex key'
    /\ str_contains msg ([backquote] ++ key' ++ [backquote]) = true.
Proof.
  intros Hk. pose proof Hk as Hk0. destruct Hk as (kvs & -> & Hk).
  unfold validate_ocr_one. cbn -[s].
  destruct (dict_get str_eqb (s "meta") kvs) as [m|] eqn:Em.
  - cbn -[s]. destruct (dict_get str_eqb (s "path") kvs) as [pth|] eqn:Ep.
    + destruct Hk as [[_ H] | [[_ H] | [_ (mkvs & H1 & H2)]]]; try congruence.
      inversion H1; subst m. cbn -[s]. rewrite H2. cbn -[s].
      exists (s "page"), msg_missing_page. split; [reflexivity|]. split; [|reflexivity].
      exists kvs. split; [reflexivity|]. right. right. split; [reflexivity|]. eauto.
    + cbn -[s]. exists (s "path"), msg_missing_path. split; [reflexivity|]. split; [|reflexivity].
      exists kvs. split; [reflexivity|]. right. left. auto.
  - cbn -[s]. exists (s "meta"), msg_missing_meta. split; [reflexivity|]. split; [|reflexivity].
    exists kvs. split; [reflexivity|]. left. auto.
Qed.

Lemma validate_ocr_example_app (pre post : list json) (ex : json) (e : pyexc) :
  Forall (fun eg => validate_ocr_one eg = Ok tt) pre ->
  validate_ocr_one ex = Err e ->
  validate_ocr_example (pre ++ ex :: post) = (pre, Some e).
Proof.
  intros Hpre Hex. induction Hpre as [|eg pre Heg _ IH]; simpl.
  - now rewrite Hex.
  - rewrite Heg, IH. reflexivity.
Qed.

(** C8: in [pdf.ocr.correct], when the stream reaches a task that lacks
    [meta], [path] or [meta.page] (all earlier tasks valid and processed
    without error), it ends with a [ValueError] whose message names a key the
    task lacks, and the trace holds only the work on the earlier tasks: no
    document, crop or OCR for this one. *)
Theorem ocr_validation_before_processing :
  forall (b64encode : encoded -> pystr) (ocr : pil_image -> pystr)
         (input_hash task_hash : json -> Z) (labels : list pystr) (scale : Z)
         (fold_dashes autofocus : bool) (pre : list json) (ex : json) (post : list json)
         (key : pystr),
  Forall (fun eg => validate_ocr_one eg = Ok tt) pre ->
  snd (new_stream b64encode ocr input_hash task_hash labels scale fold_dashes autofocus pre)
    = Ok tt ->
  missing_key ex key ->
  exists key' msg,
    pdf_ocr_correct_stream b64encode ocr input_hash task_hash labels scale fold_dashes autofocus
      (pre ++ ex :: post)
    = (fst (new_stream b64encode ocr input_hash task_hash labels scale fold_dashes autofocus pre),
       Some (ValueError msg))
    /\ missing_key ex key'
    /\ str_contains msg ([backquote] ++ key' ++ [backquote]) = true.
Proof.
  intros b64encode ocr input_hash task_hash labels scale fold_dashes autofocus pre ex post key
    Hpre Hok Hk.
  destruct (validate_ocr_one_missing ex key Hk) as (key' & msg & He & Hk' & Hmsg).
  exists key', msg. split; [|split; assumption].
  unfold pdf_ocr_correct_stream. rewrite (validate_ocr_example_app pre post ex _ Hpre He).
  destruct (new_stream b64encode ocr input_hash task_hash labels scale fold_dashes autofocus pre)
    as [evs r]. simpl in Hok. now subst r.
Qed.

(* ------------------------------------------------------------------ *)
(** ** Instances of the theorems at concrete inputs *)

Lemma fold_ocr_dashes_spec_witness :
  ~ In dash (strip (s " ab ")) /\ fold_line (s " ab ") = s "ab "
  /\ fold_line (s "x-y-z") = s "x-y".
Proof.
  split; [vm_compute; intros [H|[H|[]]]; discriminate|]. split.
  - apply (proj1 (proj2 (proj2 (proj2 fold_ocr_dashes_spec)))).
    vm_compute. intros [H|[H|[]]]; discriminate.
  - apply (proj1 (proj2 (proj2 (proj2 (proj2 fold_ocr_dashes_spec)))) _ (s "x-y") (s "z")).
    + reflexivity.
    + vm_compute. intros [H|[]]; discriminate.
Defined.

Lemma fold_ocr_dashes_idempotent_clean_witness :
  ~ In dash (fold_ocr_dashes (s "ab" ++ [nl] ++ s "cd")) /\
  fold_ocr_dashes (fold_ocr_dashes (s "ab" ++ [nl] ++ s "cd")) = fold_ocr_dashes (s "ab" ++ [nl] ++ s "cd").
Proof.
  assert (H : ~ In dash (fold_ocr_dashes (s "ab" ++ [nl] ++ s "cd"))).
  { vm_compute. intros H0. repeat (destruct H0 as [H0|H0]; [discriminate|]). exact H0. }
  split; [exact H|]. apply (proj1 fold_ocr_dashes_idempotent_clean). exact H.
Defined.

Lemma empty_source_folder_continues_witness :
  exists c,
    pdf_image_manual (fun _ => []) (fun _ => 1%nat) (fun _ => 0%Z) (fun _ => 0%Z)
      (s "ds") (s "pdfs") (Directory []) (s "a,b") false false = ([msg_no_pdfs], Ok c)
    /\ ic_stream c = [].
Proof.
  destruct (empty_source_folder_continues (fun _ => []) (fun _ => 1%nat) (fun _ => 0%Z)
              (fun _ => 0%Z) (s "ds") (s "pdfs") (s "a,b") false false) as [_ [_ [H _]]].
  eapply H; [discriminate | reflexivity | reflexivity].
Defined.

Lemma label_colors_by_position_witness :
  one_pdf_folder <> Missing /\
  exists c, snd (pdf_image_manual (fun _ => []) (fun _ => 1%nat) (fun _ => 0%Z) (fun _ => 0%Z)
                   (s "ds") (s "pdfs") one_pdf_folder (s "a,b") false false) = Ok c
    /\ dict_get str_eqb (s "b") (ic_label_colors c) = nth_error palette 1.
Proof.
  split; [discriminate|].
  destruct (label_colors_by_position (fun _ => []) (fun _ => 1%nat) (fun _ => 0%Z) (fun _ => 0%Z)
              (s "ds") (s "pdfs") (s "a,b") one_pdf_folder false false
              ltac:(discriminate)) as [H _].
  destruct (H ltac:(vm_compute; lia)) as (c & Hc & _ & Hcol).
  exists c. split; [exact Hc|]. apply Hcol.
  - reflexivity.
  - intros j Hj. destruct j as [|[|j]]; [lia | lia | destruct j; discriminate].
Defined.

Lemma before_db_bundled_key_error_witness :
  exists c f,
    snd (pdf_image_manual (fun _ => []) (fun _ => 1%nat) (fun _ => 0%Z) (fun _ => 0%Z)
           (s "ds") (s "pdfs") one_pdf_folder (s "a") true false) = Ok c
    /\ ic_before_db c = Some f
    /\ f (ic_stream c) = Err (KeyError (s "image")).
Proof.
  destruct (snd (pdf_image_manual (fun _ => []) (fun _ => 1%nat) (fun _ => 0%Z) (fun _ => 0%Z)
                   (s "ds") (s "pdfs") one_pdf_folder (s "a") true false)) as [c|e] eqn:Hc;
    [|vm_compute in Hc; discriminate].
  destruct (before_db_bundled_key_error (fun _ => []) (fun _ => 1%nat) (fun _ => 0%Z)
              (fun _ => 0%Z) (s "ds") (s "pdfs") (s "a") one_pdf_folder c Hc)
    as (f & Hf & _ & Hst).
  exists c, f. split; [reflexivity|]. split; [exact Hf|].
  pose proof Hc as Hc'. vm_compute in Hc'. injection Hc' as <-.
  apply (Hst _ _ (or_introl eq_refl)).
Defined.

Lemma ocr_document_opened_once_witness :
  count_open (fst (process_task (fun _ => []) (fun _ => []) (fun _ => 0%Z) (fun _ => 0%Z)
                     [s "a"] 3 false false two_box_task)) = 1%nat
  /\ count_render (fst (process_task (fun _ => []) (fun _ => []) (fun _ => 0%Z) (fun _ => 0%Z)
                          [s "a"] 3 false false two_box_task)) = 1%nat
  /\ has_labelled_span [s "a"] two_box_task.
Proof.
  split; [vm_compute; reflexivity|]. split; [vm_compute; reflexivity|].
  apply (proj2 (proj2 (ocr_document_opened_once (fun _ => []) (fun _ => []) (fun _ => 0%Z)
                         (fun _ => 0%Z) [s "a"] 3 false false two_box_task))).
  apply Nat.ltb_lt. vm_compute. reflexivity.
Defined.

Lemma ocr_validation_before_processing_witness :
  exists key' msg,
    pdf_ocr_correct_stream (fun _ => []) (fun _ => []) (fun _ => 0%Z) (fun _ => 0%Z)
      [s "a"] 3 false false [two_box_task; JObj []; two_box_task]
    = (fst (new_stream (fun _ => []) (fun _ => []) (fun _ => 0%Z) (fun _ => 0%Z)
              [s "a"] 3 false false [two_box_task]), Some (ValueError msg))
    /\ missing_key (JObj []) key'
    /\ str_contains msg ([backquote] ++ key' ++ [backquote]) = true.
Proof.
  apply (ocr_validation_before_processing (fun _ => []) (fun _ => []) (fun _ => 0%Z)
           (fun _ => 0%Z) [s "a"] 3 false false [two_box_task] (JObj []) [two_box_task]
           (s "meta")).
  - constructor; [reflexivity | constructor].
  - vm_compute. reflexivity.
  - exists []. split; [reflexivity|]. left. split; reflexivity.
Defined.

Lemma page_to_image_declares_png_witness :
  In (page_to_image (fun _ => s "QUJD") (s "paper.pdf") 0) (pdf_to_images (fun _ => s "QUJD") (s "paper.pdf") 2)
  /\ data_uri_media (page_to_image (fun _ => s "QUJD") (s "paper.pdf") 0) = Some (s "image/png").
Proof.
  split; [vm_compute; left; reflexivity|].
  destruct (proj1 (proj2 (page_to_image_declares_png (fun _ => s "QUJD") (s "paper.pdf")))
              2%nat (page_to_image (fun _ => s "QUJD") (s "paper.pdf") 0)
              ltac:(vm_compute; left; reflexivity)) as (k & _ & Hm).
  exact Hm.
Defined.

(* ================================================================== *)
(** * Further properties of the code *)

(* ------------------------------------------------------------------ *)
(** ** Dictionaries *)

Section DictLemmas.
Context {K V : Type} (eqk : K -> K -> bool).
Hypothesis eqk_spec : forall a b, eqk a b = true <-> a = b.

Lemma eqk_refl (a : K) : eqk a a = true.
Proof. now apply eqk_spec. Qed.

Lemma dict_get_set_gen (k k' : K) (v : V) (d : list (K * V)) :
  dict_get eqk k (dict_set eqk k' v d) = if eqk k k' then Some v else dict_get eqk k d.
Proof.
  induction d as [|[k0 v0] d IH]; simpl.
  - reflexivity.
  - destruct (eqk k' k0) eqn:E1.
    + apply eqk_spec in E1. subst k0. simpl. now destruct (eqk k k').
    + simpl. rewrite IH. destruct (eqk k k0) eqn:E2; auto.
      apply eqk_spec in E2. subst k0.
      destruct (eqk k k') eqn:E3; auto.
      apply eqk_spec in E3. subst. now rewrite eqk_refl in E1.
Qed.

Lemma dict_get_del_other (k k' : K) (d : list (K * V)) :
  eqk k k' = false -> dict_get eqk k (dict_del eqk k' d) = dict_get eqk k d.
Proof.
  intros Hne. induction d as [|[k0 v0] d IH]; simpl; [reflexivity|].
  destruct (eqk k' k0) eqn:E1.
  - apply eqk_spec in E1. subst k0. now rewrite Hne.
  - simpl. now rewrite IH.
Qed.

Lemma dict_get_none_notin (k : K) (d : list (K * V)) :
  dict_get eqk k d = None <-> ~ In k (map fst d).
Proof.
  induction d as [|[k0 v0] d IH]; simpl; [tauto|].
  destruct (eqk k k0) eqn:E.
  - apply eqk_spec in E. subst. split; [discriminate | tauto].
  - rewrite IH. split; [|tauto]. intros H [H'|H']; [|tauto].
    subst. now rewrite eqk_refl in E.
Qed.

Lemma dict_del_nodup (k : K) (d : list (K * V)) :
  NoDup (map fst d) -> dict_get eqk k (dict_del eqk k d) = None.
Proof.
  induction d as [|[k0 v0] d IH]; simpl; intros Hnd; [reflexivity|].
  inversion Hnd as [|? ? Hn Hnd']; subst.
  destruct (eqk k k0) eqn:E.
  - apply eqk_spec in E. subst. now apply dict_get_none_notin.
  - simpl. rewrite E. now apply IH.
Qed.

Lemma dict_set_keys (k : K) (v : V) (d : list (K * V)) :
  map fst (dict_set eqk k v d) = if existsb (eqk k) (map fst d) then map fst d
                                 else map fst d ++ [k].
Proof.
  induction d as [|[k0 v0] d IH]; simpl; [reflexivity|].
  destruct (eqk k k0) eqn:E; simpl; [reflexivity|].
  rewrite IH. now destruct (existsb (eqk k) (map fst d)).
Qed.

Lemma dict_set_nodup (k : K) (v : V) (d : list (K * V)) :
  NoDup (map fst d) -> NoDup (map fst (dict_set eqk k v d)).
Proof.
  intros Hnd. rewrite dict_set_keys.
  destruct (existsb (eqk k) (map fst d)) eqn:E; [exact Hnd|].
  apply NoDup_app; [exact Hnd | repeat constructor; simpl; tauto |].
  intros x Hx [-> | []]. assert (Hf : existsb (eqk x) (map fst d) = true).
  { apply existsb_exists. exists x. split; [exact Hx | apply eqk_refl]. }
  congruence.
Qed.

Lemma dict_set_same_key (k k' : K) (v : V) (d : list (K * V)) :
  In k' (map fst (dict_set eqk k v d)) <-> k' = k \/ In k' (map fst d).
Proof.
  rewrite dict_set_keys. destruct (existsb (eqk k) (map fst d)) eqn:E.
  - apply existsb_exists in E as (x & Hx & Heq). apply eqk_spec in Heq. subst x.
    split; [tauto|]. intros [->|H]; assumption.
  - rewrite in_app_iff. simpl. intuition congruence.
Qed.
End DictLemmas.

Lemma nat_eqb_spec (a b : nat) : Nat.eqb a b = true <-> a = b.
Proof. apply Nat.eqb_eq. Qed.

(* ------------------------------------------------------------------ *)
(** ** [get_token_labels] *)

Lemma label_seq_get (l : pystr) (i a n : nat) (acc : list (nat * pystr)) :
  dict_get Nat.eqb i (fold_left (fun acc j => dict_set Nat.eqb j l acc) (seq a n) acc)
  = if (a <=? i) && (i <? a + n) then Some l else dict_get Nat.eqb i acc.
Proof.
  revert a acc. induction n as [|n IH]; intros a acc; simpl.
  - destruct (a <=? i) eqn:E1, (i <? a + 0) eqn:E2; simpl; auto.
    apply Nat.leb_le in E1; apply Nat.ltb_lt in E2; lia.
  - rewrite IH, (dict_get_set_gen Nat.eqb nat_eqb_spec).
    destruct (Nat.eqb i a) eqn:Ei.
    + apply Nat.eqb_eq in Ei. subst i.
      replace (S a <=? a) with false by (symmetry; apply Nat.leb_gt; lia).
      replace (a <=? a) with true by (symmetry; apply Nat.leb_le; lia).
      replace (a <? a + S n) with true by (symmetry; apply Nat.ltb_lt; lia). reflexivity.
    + apply Nat.eqb_neq in Ei.
      destruct (S a <=? i) eqn:E1, (a <=? i) eqn:E2, (i <? S a + n) eqn:E3,
               (i <? a + S n) eqn:E4; simpl; auto;
        rewrite ?Nat.leb_le, ?Nat.leb_gt, ?Nat.ltb_lt, ?Nat.ltb_ge in *; lia.
Qed.

Lemma label_span_step_get (acc : list (nat * pystr)) (sp : lspan) (i : nat) :
  dict_get Nat.eqb i (label_span_step acc sp)
  = if (sp_start sp <=? i) && (i <? sp_end sp) then Some (sp_label sp)
    else dict_get Nat.eqb i acc.
Proof.
  unfold label_span_step. rewrite label_seq_get.
  destruct (sp_start sp <=? i) eqn:E1; simpl; [|reflexivity].
  apply Nat.leb_le in E1.
  destruct (i <? sp_start sp + (sp_end sp - sp_start sp)) eqn:E2,
           (i <? sp_end sp) eqn:E3; auto; rewrite ?Nat.ltb_lt, ?Nat.ltb_ge in *; lia.
Qed.

Lemma covers_b (sp : lspan) (i : nat) :
  (sp_start sp <=? i) && (i <? sp_end sp) = true <-> covers sp i.
Proof.
  unfold covers. rewrite andb_true_iff, Nat.leb_le, Nat.ltb_lt. tauto.
Qed.

Lemma label_fold_uncovered (sps : list lspan) (acc : list (nat * pystr)) (i : nat) :
  Forall (fun sp => ~ covers sp i) sps ->
  dict_get Nat.eqb i (fold_left label_span_step sps acc) = dict_get Nat.eqb i acc.
Proof.
  revert acc. induction sps as [|sp sps IH]; intros acc H; simpl; [reflexivity|].
  inversion H as [|? ? Hsp Hr]; subst. rewrite IH by exact Hr.
  rewrite label_span_step_get.
  destruct ((sp_start sp <=? i) && (i <? sp_end sp)) eqn:E; [|reflexivity].
  apply covers_b in E. contradiction.
Qed.

Lemma label_fold_keeps (sps : list lspan) (acc : list (nat * pystr)) (i : nat) :
  dict_get Nat.eqb i acc <> None ->
  dict_get Nat.eqb i (fold_left label_span_step sps acc) <> None.
Proof.
  revert acc. induction sps as [|sp sps IH]; intros acc H; simpl; [exact H|].
  apply IH. rewrite label_span_step_get.
  destruct ((sp_start sp <=? i) && (i <? sp_end sp)); [discriminate | exact H].
Qed.

(** [get_token_labels]: a token inside some layout span gets the label of the
    LAST layout span (in the order of the [layout] span group) that covers
    it, so a later span overrides an earlier overlapping one; a token outside
    every layout span gets no label. *)
Theorem get_token_labels_last_span :
  forall (d : ldoc) (i : nat),
  (dict_get Nat.eqb i (get_token_labels d) = None
     <-> Forall (fun sp => ~ covers sp i) (doc_layout_spans d))
  /\ (forall pre sp post,
        doc_layout_spans d = pre ++ sp :: post -> covers sp i ->
        Forall (fun sp' => ~ covers sp' i) post ->
        dict_get Nat.eqb i (get_token_labels d) = Some (sp_label sp)).
Proof.
  intros d i. unfold get_token_labels. fold label_span_step. split.
  - split.
    + intros H. apply Forall_forall. intros sp Hin Hc.
      apply in_split in Hin as (pre & post & Hsp). rewrite Hsp in H.
      rewrite fold_left_app in H. simpl in H.
      revert H. apply label_fold_keeps. rewrite label_span_step_get.
      apply covers_b in Hc. rewrite Hc. discriminate.
    + intros H. now rewrite label_fold_uncovered.
  - intros pre sp post Hsp Hc Hpost. rewrite Hsp, fold_left_app. simpl.
    rewrite label_fold_uncovered by exact Hpost.
    rewrite label_span_step_get. apply covers_b in Hc. now rewrite Hc.
Qed.

(* ------------------------------------------------------------------ *)
(** ** [get_layout_tokens] *)

Lemma layout_tokens_from_nth (labels : list (nat * pystr)) (toks : list (nat * token))
    (i offset k : nat) (t : layout_token) :
  nth_error (layout_tokens_from labels toks i offset) k = Some t ->
  exists ti tk, nth_error toks k = Some (ti, tk)
    /\ lt_id t = i + k
    /\ lt_start t = offset + texts_before toks k
    /\ lt_end t = lt_start t + List.length (tok_text tk)
    /\ lt_text t = tok_text tk /\ lt_ws t = tok_ws tk
    /\ lt_layout t = dict_get Nat.eqb ti labels
    /\ lt_disabled t = str_eqb (tok_text tk) SEPARATOR.
Proof.
  revert i offset k. induction toks as [|[ti tk] r IH]; intros i offset k H.
  - destruct k; discriminate.
  - destruct k as [|k]; simpl in H.
    + injection H as <-. exists ti, tk. unfold texts_before. simpl.
      repeat split; lia.
    + destruct (IH _ _ _ H) as (ti' & tk' & Hn & Hid & Hst & Hrest).
      exists ti', tk'. split; [exact Hn|]. split; [rewrite Hid; lia|].
      split; [|exact Hrest].
      rewrite Hst. unfold texts_before. simpl. rewrite length_app. lia.
Qed.

Lemma layout_tokens_from_length (labels : list (nat * pystr)) (toks : list (nat * token))
    (i offset : nat) :
  List.length (layout_tokens_from labels toks i offset) = List.length toks.
Proof.
  revert i offset. induction toks as [|[ti tk] r IH]; intros i offset; simpl; auto.
Qed.

(** [get_layout_tokens]: there is one token dictionary per spaCy token, in
    order.  The k-th has id k, the text, whitespace flag and layout label
    (looked up by the token's index in the doc) of the k-th token, is
    disabled exactly when its text is the separator ["\n\n"], and starts at
    the total length of the texts of the tokens before it (their whitespace
    is not counted) and ends at its start plus its text's length. *)
Theorem get_layout_tokens_fields :
  forall (toks : list (nat * token)) (labels : list (nat * pystr)),
  List.length (get_layout_tokens toks labels) = List.length toks
  /\ forall k t, nth_error (get_layout_tokens toks labels) k = Some t ->
       exists ti tk, nth_error toks k = Some (ti, tk)
         /\ lt_id t = k
         /\ lt_start t = texts_before toks k
         /\ lt_end t = lt_start t + List.length (tok_text tk)
         /\ lt_text t = tok_text tk /\ lt_ws t = tok_ws tk
         /\ lt_layout t = dict_get Nat.eqb ti labels
         /\ lt_disabled t = str_eqb (tok_text tk) SEPARATOR.
Proof.
  intros toks labels. split; [apply layout_tokens_from_length|].
  intros k t H. apply layout_tokens_from_nth in H. exact H.
Qed.

(* ------------------------------------------------------------------ *)
(** ** [path.stem], [path.suffix] and the files [LayoutStream] loads *)

Lemma rfind_last_gen (c : N) (p q : pystr) :
  ~ In c q -> rfind c (p ++ c :: q) = Z.of_nat (List.length p).
Proof.
  intros Hq. unfold rfind. rewrite rfind_from_app. cbn [rfind_from].
  rewrite N.eqb_refl, rfind_from_notin by exact Hq. lia.
Qed.

Lemma last_occurrence (c : N) (xs : pystr) :
  In c xs -> exists p q, xs = p ++ c :: q /\ ~ In c q.
Proof.
  induction xs as [|x r IH] using rev_ind; intros H; [destruct H|].
  apply in_app_or in H. destruct (N.eq_dec x c) as [-> | Hne].
  - exists r, []. split; [reflexivity | intros []].
  - destruct H as [H | [-> | []]]; [|congruence].
    destruct (IH H) as (p & q & -> & Hq). exists p, (q ++ [x]).
    split; [now rewrite <- app_assoc|].
    intros Hin. apply in_app_or in Hin as [Hin | [-> | []]]; [contradiction | congruence].
Qed.

(** [path.stem] and [path.suffix]: the stem followed by the suffix is the
    whole name; the suffix is empty or a dot followed by a non-empty text
    without a dot (the part after the last dot), and it is empty when the
    only dot starts or ends the name, as for [.bashrc] or [notes.]. *)
Theorem path_stem_suffix :
  forall (name : pystr),
  path_stem name ++ path_suffix name = name
  /\ (path_suffix name = []
      \/ exists p q, name = p ++ dot :: q /\ p <> [] /\ q <> [] /\ ~ In dot q
                     /\ path_suffix name = dot :: q /\ path_stem name = p).
Proof.
  intros name. unfold path_stem, path_suffix.
  destruct ((0 <? rfind dot name) && (rfind dot name <? Z.of_nat (List.length name) - 1))%Z
    eqn:E.
  - split; [apply firstn_skipn|]. right.
    destruct (in_dec N.eq_dec dot name) as [Hin | Hnin].
    + destruct (last_occurrence dot name Hin) as (p & q & Hn & Hq).
      rewrite Hn, (rfind_last_gen dot p q Hq) in *.
      apply andb_true_iff in E as [E1 E2]. apply Z.ltb_lt in E1, E2.
      rewrite length_app in E2. simpl in E2.
      exists p, q. split; [reflexivity|].
      split; [intros ->; simpl in E1; lia|].
      split; [intros ->; simpl in E2; lia|]. split; [exact Hq|].
      rewrite Nat2Z.id. split.
      * rewrite skipn_app, skipn_all, Nat.sub_diag. reflexivity.
      * rewrite firstn_app, firstn_all, Nat.sub_diag. simpl. apply app_nil_r.
    + unfold rfind in E. rewrite rfind_from_notin in E by exact Hnin. discriminate.
  - split; [apply app_nil_r | now left].
Qed.










(* ------------------------------------------------------------------ *)
(** ** The tasks of [LayoutStream] and the view of [pdf.spans.manual] *)

Lemma stream_files_in (per_file : fpath -> list ltask * option pyexc) (paths : list fpath)
    (t : ltask) :
  In t (fst (stream_files per_file paths)) -> exists p, In p paths /\ In t (fst (per_file p)).
Proof.
  induction paths as [|p r IH]; simpl; [tauto|].
  destruct (per_file p) as [ts e] eqn:Ep. destruct e as [e|].
  - intros H. exists p. rewrite Ep. auto.
  - destruct (stream_files per_file r) as [ts' e'] eqn:Er. simpl. intros H.
    apply in_app_or in H as [H | H].
    + exists p. rewrite Ep. auto.
    + destruct IH as (q & Hq & Ht); [exact H|]. eauto.
Qed.

Lemma focus_spans_kind (hide_preview : bool) (focus : list pystr) (d : ldoc)
    (images : option (list pystr)) (i : nat) (pl : page_layout) (title : pystr)
    (sps : list lspan) (t : ltask) :
  In t (fst (focus_spans hide_preview focus d images i pl title sps)) ->
  exists eg l ti n, t = FocusTask eg l ti n.
Proof.
  induction sps as [|sp r IH]; simpl; [tauto|].
  destruct (negb (str_in (sp_label sp) focus)); [exact IH|].
  unfold focus_task. destruct (page_image hide_preview images i); simpl; [|tauto].
  destruct (focus_spans hide_preview focus d images i pl title r) as [rest e]. simpl.
  intros [<- | H]; eauto.
Qed.

Lemma focus_pages_kind (hide_preview : bool) (focus : list pystr) (d : ldoc)
    (images : option (list pystr)) (i : nat) (title : pystr)
    (pages : list (page_layout * list lspan)) (t : ltask) :
  In t (fst (focus_pages hide_preview focus d images i title pages)) ->
  exists eg l ti n, t = FocusTask eg l ti n.
Proof.
  revert i. induction pages as [|[pl sps] r IH]; intros i; simpl; [tauto|].
  destruct (focus_spans hide_preview focus d images i pl title sps) as [ts e] eqn:Es.
  pose proof (focus_spans_kind hide_preview focus d images i pl title sps t) as Hk.
  rewrite Es in Hk. destruct e; simpl; [exact Hk|].
  destruct (focus_pages hide_preview focus d images (S i) title r) as [ts' e'] eqn:Ep.
  simpl. intros H. apply in_app_or in H as [H | H]; [exact (Hk H)|].
  apply (IH (S i)). now rewrite Ep.
Qed.

(** [pdf.spans.manual] on a folder of PDFs: its [view_id] is ["pages"]
    exactly when the stream holds whole-document tasks (neither
    [--split-pages] nor [--focus]); with [--split-pages] and no focus every
    task is one page, and with a focus every task is one span. *)
Theorem spans_manual_view_matches_tasks :
  forall (layout : fpath -> ldoc) (b64encode : encoded -> pystr) (n_pages : fpath -> nat)
         (split_pages hide_preview : bool) (focus : list pystr) (paths : list fpath)
         (t : ltask),
  In t (fst (get_stream layout b64encode n_pages split_pages hide_preview focus paths)) ->
  (spans_manual_view_id split_pages focus = s "pages"
     <-> exists pages title, t = DocTask pages title)
  /\ (split_pages = true -> focus = [] -> exists pg title n, t = PageTask pg title n)
  /\ (focus <> [] -> exists eg l title n, t = FocusTask eg l title n).
Proof.
  intros layout b64encode n_pages split_pages hide_preview focus paths t H.
  unfold get_stream in H. destruct focus as [|f0 fs].
  - apply stream_files_in in H as (p & _ & H). unfold full_stream_file in H.
    destruct (full_pages_from hide_preview (layout p)
                (file_images b64encode n_pages hide_preview p) 0 (doc_pages (layout p)))
      as [pgs e] eqn:Epg.
    destruct split_pages; simpl in H.
    + apply in_map_iff in H as (x & <- & _).
      split; [split; [discriminate | intros (pages & title & Hd); discriminate]|].
      split; [eauto | intros Hf; now exfalso].
    + destruct e; simpl in H; [destruct H|]. destruct H as [<- | []].
      split; [split; [eauto | reflexivity]|]. split; [discriminate | intros Hf; now exfalso].
  - apply stream_files_in in H as (p & _ & H). unfold focus_stream_file in H.
    apply focus_pages_kind in H as (eg & l & ti & n & ->).
    split; [|split; [discriminate | eauto]].
    unfold spans_manual_view_id. rewrite andb_false_r.
    split; [discriminate | intros (pages & title & Hd); discriminate].
Qed.

Lemma full_page_hidden (d : ldoc) (images : option (list pystr)) (i : nat)
    (pl : page_layout) (sps : list lspan) :
  full_page true d images i pl sps =
  match sps with
  | [] => Err IndexError
  | first :: _ =>
      Ok {| pg_text := join_with SEPARATOR (map (span_text d) sps);
            pg_tokens := get_layout_tokens
                           (doc_slice d (sp_start first) (sp_end (last sps first)))
                           (get_token_labels d);
            pg_width := pl_width pl; pg_height := pl_height pl; pg_image := None |}
  end.
Proof.
  unfold full_page. destruct sps as [|first r]; [reflexivity|]. cbn [bind].
  destruct (rev (first :: r)) as [|lst rr] eqn:Er.
  - apply (f_equal (@List.length _)) in Er. rewrite length_rev in Er. discriminate.
  - cbn [bind page_image]. repeat f_equal.
    rewrite <- (rev_involutive (first :: r)), Er. simpl.
    rewrite last_last. reflexivity.
Qed.

Lemma full_pages_from_hidden_ok (d : ldoc) (images : option (list pystr)) (i : nat)
    (pages : list (page_layout * list lspan)) :
  Forall (fun p => snd p <> []) pages ->
  snd (full_pages_from true d images i pages) = None
  /\ map fst (fst (full_pages_from true d images i pages)) = map fst pages.
Proof.
  revert i. induction pages as [|[pl sps] r IH]; intros i H; cbn [full_pages_from]; [auto|].
  inversion H as [|? ? Hne Hr]; subst. simpl in Hne.
  rewrite full_page_hidden. destruct sps as [|sp sps']; [congruence|].
  destruct (IH (S i) Hr) as [He Hm].
  destruct (full_pages_from true d images (S i) r) as [rest e]. simpl in *.
  now rewrite He, Hm.
Qed.

Lemma full_pages_from_hidden_err (d : ldoc) (images : option (list pystr)) (i : nat)
    (pre post : list (page_layout * list lspan)) (pl : page_layout) :
  Forall (fun p => snd p <> []) pre ->
  snd (full_pages_from true d images i (pre ++ (pl, []) :: post)) = Some IndexError
  /\ map fst (fst (full_pages_from true d images i (pre ++ (pl, []) :: post))) = map fst pre.
Proof.
  revert i. induction pre as [|[pl' sps] r IH]; intros i H; cbn [full_pages_from app].
  - rewrite full_page_hidden. auto.
  - inversion H as [|? ? Hne Hr]; subst. simpl in Hne.
    rewrite full_page_hidden. destruct sps as [|sp sps']; [congruence|].
    destruct (IH (S i) Hr) as [He Hm].
    destruct (full_pages_from true d images (S i) (r ++ (pl, []) :: post)) as [rest e].
    simpl in *. now rewrite He, Hm.
Qed.

(** [get_full_stream] with the preview hidden: [page_spans[0]] raises
    [IndexError] on a page without layout spans.  When every page has spans
    the file gives one task per page with [--split-pages] and one task
    otherwise, without error; when a page has none, the file gives the tasks
    of the pages before it with [--split-pages] and no task otherwise, and
    the stream ends with [IndexError]. *)
Theorem full_stream_empty_page :
  forall (layout : fpath -> ldoc) (b64encode : encoded -> pystr) (n_pages : fpath -> nat)
         (split_pages : bool) (fp : fpath),
  let pages := doc_pages (layout fp) in
  let out := full_stream_file layout b64encode n_pages split_pages true fp in
  (Forall (fun p => snd p <> []) pages ->
     snd out = None
     /\ List.length (fst out) = if split_pages then List.length pages else 1)
  /\ (forall pre pl post, pages = pre ++ (pl, []) :: post ->
        Forall (fun p => snd p <> []) pre ->
        snd out = Some IndexError
        /\ List.length (fst out) = if split_pages then List.length pre else 0).
Proof.
  intros layout b64encode n_pages split_pages fp pages out. subst pages out.
  unfold full_stream_file. split.
  - intros H.
    destruct (full_pages_from_hidden_ok (layout fp) (file_images b64encode n_pages true fp) 0
                (doc_pages (layout fp)) H) as [He Hm].
    destruct (full_pages_from true (layout fp) (file_images b64encode n_pages true fp) 0
                (doc_pages (layout fp))) as [pgs e]. simpl in He, Hm. subst e.
    destruct split_pages; simpl; split; auto.
    rewrite length_map, <- (length_map fst pgs), Hm, length_map. reflexivity.
  - intros pre pl post Hp H. rewrite Hp.
    destruct (full_pages_from_hidden_err (layout fp) (file_images b64encode n_pages true fp) 0
                pre post pl H) as [He Hm].
    destruct (full_pages_from true (layout fp) (file_images b64encode n_pages true fp) 0
                (pre ++ (pl, []) :: post)) as [pgs e]. simpl in He, Hm. subst e.
    destruct split_pages; simpl; split; auto.
    rewrite length_map, <- (length_map fst pgs), Hm, length_map. reflexivity.
Qed.

Lemma focus_spans_hidden (focus : list pystr) (d : ldoc) (images : option (list pystr))
    (i : nat) (pl : page_layout) (title : pystr) (sps : list lspan) :
  focus_spans true focus d images i pl title sps = (focus_expected d focus title (pl, sps), None).
Proof.
  induction sps as [|sp r IH]; cbn [focus_spans]; [reflexivity|].
  unfold focus_expected in *. simpl filter.
  destruct (str_in (sp_label sp) focus); simpl negb; cbv iota.
  - unfold focus_task. cbn [page_image bind]. rewrite IH. reflexivity.
  - exact IH.
Qed.

Lemma focus_pages_hidden (focus : list pystr) (d : ldoc) (images : option (list pystr))
    (i : nat) (title : pystr) (pages : list (page_layout * list lspan)) :
  focus_pages true focus d images i title pages
  = (flat_map (focus_expected d focus title) pages, None).
Proof.
  revert i. induction pages as [|[pl sps] r IH]; intros i; cbn [focus_pages]; [reflexivity|].
  rewrite focus_spans_hidden, IH. reflexivity.
Qed.

(** [get_focus_stream] with the preview hidden never fails: a file gives one
    task per layout span whose label is one of the focus labels, page by page
    and in span order, carrying that span's text and tokens, the page's size
    and number, the span's label and the file's stem as title. *)
Theorem focus_stream_spans :
  forall (layout : fpath -> ldoc) (b64encode : encoded -> pystr) (n_pages : fpath -> nat)
         (focus : list pystr) (fp : fpath),
  focus_stream_file layout b64encode n_pages true focus fp
  = (flat_map (focus_expected (layout fp) focus (path_stem (fp_name fp)))
              (doc_pages (layout fp)), None).
Proof.
  intros. unfold focus_stream_file. apply focus_pages_hidden.
Qed.

(* ------------------------------------------------------------------ *)
(** ** The tasks [pdf.ocr.correct] yields *)

Lemma tbind_in {A B : Type} (m : traced A) (k : A -> traced B) (e : event) :
  In e (fst (tbind m k)) -> In e (fst m) \/ exists a, snd m = Ok a /\ In e (fst (k a)).
Proof.
  destruct m as [evs [a|err]]; simpl; [|tauto].
  destruct (k a) as [evs' r'] eqn:Ek. simpl. intros H.
  apply in_app_or in H as [H|H]; [tauto|]. right. exists a. rewrite Ek. auto.
Qed.

Lemma titer_in {A : Type} (f : A -> traced unit) (xs : list A) (e : event) :
  In e (fst (titer f xs)) -> exists x, In x xs /\ In e (fst (f x)).
Proof.
  induction xs as [|x r IH]; simpl; [tauto|]. intros H.
  apply tbind_in in H as [H | (a & _ & H)]; [eauto|].
  destruct (IH H) as (y & Hy & He). eauto.
Qed.

Lemma region_of_obj (annot : json) (r : region Z) :
  region_of annot = Ok r -> exists kvs, annot = JObj kvs.
Proof. destruct annot; try discriminate. eauto. Qed.

Lemma get_obj_set (kvs : list (pystr * json)) (k k' : pystr) (v : json) :
  get (JObj (dict_set str_eqb k' v kvs)) k
  = if str_eqb k k' then Ok v else get (JObj kvs) k.
Proof. simpl. rewrite dict_get_set. now destruct (str_eqb k k'). Qed.

Lemma get_obj_del (kvs : list (pystr * json)) (k k' : pystr) :
  str_eqb k k' = false -> get (JObj (dict_del str_eqb k' kvs)) k = get (JObj kvs) k.
Proof.
  intros H. simpl. rewrite (dict_get_del_other str_eqb str_eqb_spec k k' kvs H). reflexivity.
Qed.

Lemma crop_annot_ok (b64encode : encoded -> pystr) (scale : Z) (pil_page : pil_image)
    (annot : json) (c : pil_image) (img : pystr) :
  crop_annot b64encode scale pil_page annot = Ok (c, img) ->
  exists r, region_of annot = Ok r /\ c = Cropped pil_page (crop_box r scale)
    /\ img = data_uri_prefix ++ b64encode (pil_save c JPEG).
Proof.
  unfold crop_annot. destruct (region_of annot) as [r|e]; cbn [bind]; [|discriminate].
  unfold pil_crop. destruct (_ <? _)%Z; [discriminate|]. destruct (_ <? _)%Z; [discriminate|].
  cbn [bind pil_save_jpeg]. destruct (_ || _); [discriminate|].
  intros H. injection H as <- <-. exists r. auto.
Qed.


(** The fields of the task yielded for one span; the hashes are added last. *)
Lemma process_annot_yield (b64encode : encoded -> pystr) (ocr : pil_image -> pystr)
    (input_hash task_hash : json -> Z) (scale : Z) (fold_dashes autofocus : bool)
    (ex : json) (pil_page : pil_image) (annot t : json) :
  In (Yield t) (fst (process_annot b64encode ocr input_hash task_hash scale fold_dashes
                       autofocus ex pil_page annot)) ->
  exists r meta,
    let cropped := Cropped pil_page (crop_box r scale) in
    let text := if fold_dashes then fold_ocr_dashes (ocr cropped) else ocr cropped in
    region_of annot = Ok r /\ get ex (s "meta") = Ok meta
    /\ fst (process_annot b64encode ocr input_hash task_hash scale fold_dashes autofocus
              ex pil_page annot) = [RunOcr cropped; Yield t]
    /\ get t (s "image") = Ok (JStr (data_uri_prefix ++ b64encode (pil_save cropped JPEG)))
    /\ get t (s "text") = Ok (JStr text)
    /\ get t (s "transcription") = Ok (JStr text)
    /\ get t (s "meta") = Ok meta
    /\ get t (s "field_id") = Ok (JStr (s "transcription"))
    /\ get t (s "field_autofocus") = Ok (JBool autofocus).
Proof.
  unfold process_annot. intros H.
  destruct (crop_annot b64encode scale pil_page annot) as [[c img]|e] eqn:Ec;
    [|simpl in H; tauto].
  apply crop_annot_ok in Ec as (r & Er & -> & ->).
  destruct (region_of_obj annot r Er) as [kvs ->].
  destruct (get ex (s "meta")) as [meta|e] eqn:Em;
    [|simpl in H; destruct H as [H|[]]; discriminate].
  exists r, meta. cbn zeta. split; [exact Er|]. split; [reflexivity|].
  cbn [bind tbind tlift emit fst snd app json_set json_del] in *.
  match goal with
  | H : context [dict_get str_eqb (s "id") ?d] |- _ =>
      destruct (dict_get str_eqb (s "id") d) as [idv|] eqn:Eid
  end; [|simpl in H; destruct H as [H|[]]; discriminate].
  cbn [fst snd app In] in *. destruct H as [H | [H | []]]; [discriminate|].
  injection H as <-. split; [reflexivity|].
  unfold set_hashes, merge. cbn [fold_left fst snd json_set].
  rewrite !get_obj_set. rewrite !get_obj_del by reflexivity.
  rewrite !get_obj_set.
  repeat split; reflexivity.
Qed.

Lemma process_task_yield (b64encode : encoded -> pystr) (ocr : pil_image -> pystr)
    (input_hash task_hash : json -> Z) (labels : list pystr) (scale : Z)
    (fold_dashes autofocus : bool) (ex t : json) :
  In (Yield t) (fst (process_task b64encode ocr input_hash task_hash labels scale fold_dashes
                       autofocus ex)) ->
  exists us annot path meta page,
    useful_spans labels ex = Ok us /\ In annot us
    /\ get ex (s "path") = Ok (JStr path) /\ get ex (s "meta") = Ok meta
    /\ get meta (s "page") = Ok (JInt page)
    /\ In (Yield t) (fst (process_annot b64encode ocr input_hash task_hash scale fold_dashes
                            autofocus ex (Rendered path page scale) annot)).
Proof.
  unfold process_task, tlift, emit, tret. intros H.
  destruct (useful_spans labels ex) as [[|sp us]|e] eqn:U;
    cbn -[titer s process_annot] in H; try tauto.
  destruct (get ex (s "path")) as [p|e] eqn:Ep; cbn -[titer s process_annot] in H; try tauto.
  destruct p; cbn -[titer s process_annot] in H; try tauto. rename v into path.
  destruct (get ex (s "meta")) as [meta|e] eqn:Em; cbn -[titer s process_annot] in H;
    [|destruct H as [H|[]]; discriminate].
  destruct (get meta (s "page")) as [pg|e] eqn:Eg; cbn -[titer s process_annot] in H;
    [|destruct H as [H|[]]; discriminate].
  destruct pg; cbn -[titer s process_annot] in H; try (destruct H as [H|[]]; discriminate).
  rename z into page.
  destruct (titer (process_annot b64encode ocr input_hash task_hash scale fold_dashes
                     autofocus ex (Rendered path page scale)) (sp :: us)) as [evs r] eqn:Et.
  cbn -[titer s process_annot] in H. destruct H as [H | [H | H]]; try discriminate.
  assert (Hin : In (Yield t) (fst (titer (process_annot b64encode ocr input_hash task_hash
                  scale fold_dashes autofocus ex (Rendered path page scale)) (sp :: us))))
    by now rewrite Et.
  apply titer_in in Hin as (annot & Ha & Hy).
  exists (sp :: us), annot, path, meta, page. repeat split; auto.
Qed.

(** [pdf.ocr.correct]: every task the stream yields comes from a span of a
    source task (one of the spans [useful_spans] keeps from its [spans])
    whose label is among [labels].  The span's box, scaled by
    [scale], is cropped from the source page rendered at [scale] and OCR'd
    just before the task is yielded.  The task carries the crop as a data URI
    in [image], the OCR text (folded when [--fold-dashes] is set) in both
    [text] and [transcription], and the source task's [meta].  Its
    [field_id] is [transcription], and [field_autofocus] is the
    [--autofocus] flag. *)
Theorem ocr_yielded_task_fields :
  forall (b64encode : encoded -> pystr) (ocr : pil_image -> pystr)
         (input_hash task_hash : json -> Z) (labels : list pystr) (scale : Z)
         (fold_dashes autofocus : bool) (stream : list json) (t : json),
  In (Yield t) (fst (new_stream b64encode ocr input_hash task_hash labels scale fold_dashes
                       autofocus stream)) ->
  exists ex us annot path page meta r,
    let cropped := Cropped (Rendered path page scale) (crop_box r scale) in
    let text := if fold_dashes then fold_ocr_dashes (ocr cropped) else ocr cropped in
    In ex stream /\ useful_spans labels ex = Ok us /\ In annot us
    /\ span_is_useful labels annot = Ok true
    /\ get ex (s "path") = Ok (JStr path) /\ get ex (s "meta") = Ok meta
    /\ get meta (s "page") = Ok (JInt page) /\ region_of annot = Ok r
    /\ fst (process_annot b64encode ocr input_hash task_hash scale fold_dashes autofocus
              ex (Rendered path page scale) annot) = [RunOcr cropped; Yield t]
    /\ get t (s "image") = Ok (JStr (data_uri_prefix ++ b64encode (pil_save cropped JPEG)))
    /\ get t (s "text") = Ok (JStr text)
    /\ get t (s "transcription") = Ok (JStr text)
    /\ get t (s "meta") = Ok meta
    /\ get t (s "field_id") = Ok (JStr (s "transcription"))
    /\ get t (s "field_autofocus") = Ok (JBool autofocus).
Proof.
  intros b64encode ocr input_hash task_hash labels scale fold_dashes autofocus stream t H.
  unfold new_stream in H. apply titer_in in H as (ex & Hex & H).
  apply process_task_yield in H as (us & annot & path & meta & page & Hu & Ha & Hp & Hm & Hg & H).
  apply process_annot_yield in H as (r & meta' & Hr & Hm' & Hevs & Hfields).
  rewrite Hm in Hm'. injection Hm' as <-.
  exists ex, us, annot, path, page, meta, r. cbn zeta.
  split; [exact Hex|]. split; [exact Hu|]. split; [exact Ha|].
  split.
  { unfold useful_spans in Hu.
    destruct (get_default ex (s "spans") (JList [])) as [v|e]; simpl in Hu; [|discriminate].
    destruct v; try discriminate. exact (proj2 (filter_res_in _ _ _ _ Hu Ha)). }
  repeat (split; [assumption|]). exact Hfields.
Qed.

Lemma yields_of_app (a b : list event) : yields_of (a ++ b) = yields_of a ++ yields_of b.
Proof. unfold yields_of. apply flat_map_app. Qed.

Lemma in_yields_of (evs : list event) (t : json) : In t (yields_of evs) <-> In (Yield t) evs.
Proof.
  unfold yields_of. rewrite in_flat_map. split.
  - intros ([] & He & Ht); try destruct Ht as [<- | []]; try contradiction; exact He.
  - intros H. exists (Yield t). simpl. auto.
Qed.

Lemma map_res_forall {A B : Type} (f : A -> res B) (R : A -> B -> Prop) (xs : list A) :
  (forall x, In x xs -> exists y, f x = Ok y /\ R x y) ->
  exists ys, map_res f xs = Ok ys /\ Forall2 R xs ys.
Proof.
  induction xs as [|x r IH]; intros H; simpl.
  - exists []. split; constructor.
  - destruct (H x (or_introl eq_refl)) as (y & Hy & HR). rewrite Hy. simpl.
    destruct IH as (ys & Hys & HF); [intros z Hz; apply H; now right|].
    rewrite Hys. simpl. exists (y :: ys). split; [reflexivity | constructor; assumption].
Qed.

Lemma strip_image_data_uri (t : json) (rest : pystr) :
  get t (s "image") = Ok (JStr (data_uri_prefix ++ rest)) ->
  exists t', strip_image t = Ok t'
    /\ forall k, str_eqb k (s "image") = false -> get t' k = get t k.
Proof.
  intros H. destruct t as [| | | | |kvs]; try discriminate.
  unfold strip_image. rewrite H. simpl bind. cbv beta iota.
  replace (startswith (data_uri_prefix ++ rest) (s "data:")) with true by reflexivity.
  simpl in H. simpl json_del.
  destruct (dict_get str_eqb (s "image") kvs) eqn:E; [|discriminate].
  eexists. split; [reflexivity|]. intros k Hk. now apply get_obj_del.
Qed.

(** [before_db] of [pdf.ocr.correct] never fails on the tasks the stream
    yields (each has a string [image] that is a data URI).  It removes that
    data URI and keeps every other field. *)
Theorem ocr_before_db_ok :
  forall (b64encode : encoded -> pystr) (ocr : pil_image -> pystr)
         (input_hash task_hash : json -> Z) (labels : list pystr) (scale : Z)
         (fold_dashes autofocus : bool) (stream : list json),
  let ts := yields_of (fst (new_stream b64encode ocr input_hash task_hash labels scale
                              fold_dashes autofocus stream)) in
  exists out, before_db_ocr ts = Ok out
    /\ Forall2 (fun t t' => forall k, str_eqb k (s "image") = false -> get t' k = get t k)
               ts out.
Proof.
  intros. apply map_res_forall. intros t Ht. apply in_yields_of in Ht.
  unfold new_stream in Ht. apply titer_in in Ht as (ex & _ & H).
  apply process_task_yield in H as (_ & annot & path & meta & page & _ & _ & _ & _ & _ & H).
  apply process_annot_yield in H as (r & _ & _ & _ & _ & Himg & _).
  exact (strip_image_data_uri t _ Himg).
Qed.



Lemma count_app (p : event -> bool) (a b : list event) :
  List.length (filter p (a ++ b)) = List.length (filter p a) + List.length (filter p b).
Proof. now rewrite filter_app, length_app. Qed.

Lemma process_annot_ok (b64encode : encoded -> pystr) (ocr : pil_image -> pystr)
    (input_hash task_hash : json -> Z) (scale : Z) (fold_dashes autofocus : bool)
    (ex : json) (pil_page : pil_image) (annot : json) :
  snd (process_annot b64encode ocr input_hash task_hash scale fold_dashes autofocus
         ex pil_page annot) = Ok tt ->
  exists c t, fst (process_annot b64encode ocr input_hash task_hash scale fold_dashes
                     autofocus ex pil_page annot) = [RunOcr c; Yield t].
Proof.
  unfold process_annot.
  destruct (crop_annot b64encode scale pil_page annot) as [[c img]|e]; simpl; [|discriminate].
  destruct (get ex (s "meta")) as [meta|e]; simpl; [|discriminate].
  match goal with |- context [json_del ?a (s "id")] => destruct (json_del a (s "id")) end;
    simpl; [|discriminate].
  intros _. eauto.
Qed.

Lemma titer_counts {A : Type} (f : A -> traced unit) (xs : list A) :
  (forall x, snd (f x) = Ok tt -> exists c t, fst (f x) = [RunOcr c; Yield t]) ->
  snd (titer f xs) = Ok tt ->
  count_ocr (fst (titer f xs)) = List.length xs
  /\ count_yield (fst (titer f xs)) = List.length xs.
Proof.
  intros Hf. induction xs as [|x r IH]; simpl; [auto|].
  destruct (f x) as [evs [u|e]] eqn:Ex; simpl; [|discriminate].
  destruct u. destruct (Hf x) as (c & t & Hc); [now rewrite Ex|]. rewrite Ex in Hc.
  simpl in Hc. subst evs.
  destruct (titer f r) as [evs' r'] eqn:Er. simpl. intros Hr.
  destruct (IH Hr) as [H1 H2]. unfold count_ocr, count_yield in *. simpl. auto.
Qed.

(** [pdf.ocr.correct]: when a source task is processed without error, its
    spans whose label is among [labels] are each cropped and OCR'd once and
    each give exactly one task; the other spans give none. *)
Theorem ocr_one_task_per_span :
  forall (b64encode : encoded -> pystr) (ocr : pil_image -> pystr)
         (input_hash task_hash : json -> Z) (labels : list pystr) (scale : Z)
         (fold_dashes autofocus : bool) (ex : json) (us : list json),
  useful_spans labels ex = Ok us ->
  snd (process_task b64encode ocr input_hash task_hash labels scale fold_dashes autofocus ex)
    = Ok tt ->
  let evs := fst (process_task b64encode ocr input_hash task_hash labels scale fold_dashes
                    autofocus ex) in
  count_ocr evs = List.length us /\ count_yield evs = List.length us.
Proof.
  intros b64encode ocr input_hash task_hash labels scale fold_dashes autofocus ex us Hu.
  unfold process_task, tlift, emit, tret. rewrite Hu.
  destruct us as [|sp us']; cbn -[titer s]; [auto|].
  destruct (get ex (s "path")) as [p|e]; cbn -[titer s]; [|discriminate].
  destruct (as_str p) as [path|e]; cbn -[titer s]; [|discriminate].
  destruct (get ex (s "meta")) as [meta|e]; cbn -[titer s]; [|discriminate].
  destruct (get meta (s "page")) as [pg|e]; cbn -[titer s]; [|discriminate].
  destruct (as_int pg) as [page|e]; cbn -[titer s]; [|discriminate].
  pose proof (titer_counts (process_annot b64encode ocr input_hash task_hash scale fold_dashes
                autofocus ex (Rendered path page scale)) (sp :: us')
                (process_annot_ok b64encode ocr input_hash task_hash scale fold_dashes
                   autofocus ex (Rendered path page scale))) as Hc.
  destruct (titer (process_annot b64encode ocr input_hash task_hash scale fold_dashes
                     autofocus ex (Rendered path page scale)) (sp :: us')) as [evs r].
  cbn -[titer s] in *. intros Hr. destruct (Hc Hr) as [H1 H2].
  unfold count_ocr, count_yield in *. simpl. auto.
Qed.

(* ------------------------------------------------------------------ *)
(** ** [generate_pdf_pages] and [before_db] of [pdf.image.manual] *)

Lemma generate_split_in (b64encode : encoded -> pystr) (n_pages : fpath -> nat)
    (input_hash task_hash : json -> Z) (paths : list fpath) (t : json) :
  In t (generate_pdf_pages b64encode n_pages input_hash task_hash paths true) <->
  exists p k, In p paths /\ k < n_pages p
              /\ t = set_hashes input_hash task_hash (page_dict b64encode p k).
Proof.
  unfold generate_pdf_pages. rewrite in_flat_map. split.
  - intros (p & Hp & Ht). apply in_map_iff in Ht as (pg & <- & Hpg).
    apply in_map_iff in Hpg as (k & <- & Hk). apply in_seq in Hk. exists p, k.
    repeat split; auto; lia.
  - intros (p & k & Hp & Hk & ->). exists p. split; [exact Hp|].
    apply in_map_iff. exists (page_dict b64encode p k). split; [reflexivity|].
    apply in_map_iff. exists k. split; [reflexivity | apply in_seq; lia].
Qed.

Lemma length_flat_map {A B : Type} (f : A -> list B) (xs : list A) :
  List.length (flat_map f xs) = list_sum (map (fun x => List.length (f x)) xs).
Proof. induction xs as [|x r IH]; simpl; [reflexivity|]. now rewrite length_app, IH. Qed.

(** [generate_pdf_pages] with [split_pages]: one task per page of every PDF
    (as many as the PDFs have pages in total), in order: the PDFs in the
    order of the paths, and the pages of each PDF from page 0 to its last
    page, with nothing in between.  Each carries the page
    rendered as a data URI in [image], the PDF's path in [path], and the
    file name and 0-based page number in [meta]. *)
Theorem generate_pdf_pages_split :
  forall (b64encode : encoded -> pystr) (n_pages : fpath -> nat)
         (input_hash task_hash : json -> Z) (paths : list fpath),
  let ts := generate_pdf_pages b64encode n_pages input_hash task_hash paths true in
  ts = List.concat (map (fun p => map (fun k => set_hashes input_hash task_hash
                                                     (page_dict b64encode p k))
                                      (seq 0 (n_pages p))) paths)
  /\ List.length ts = list_sum (map n_pages paths)
  /\ forall t, In t ts <->
       exists p k, In p paths /\ k < n_pages p
         /\ t = set_hashes input_hash task_hash (page_dict b64encode p k)
         /\ get t (s "image") = Ok (JStr (page_to_image b64encode (path_str p) (Z.of_nat k)))
         /\ get t (s "path") = Ok (JStr (path_str p))
         /\ get t (s "meta") = Ok (JObj [(s "title", JStr (fp_name p));
                                         (s "page", JInt (Z.of_nat k))]).
Proof.
  intros b64encode n_pages input_hash task_hash paths ts. split; [|split].
  - unfold ts, generate_pdf_pages. rewrite flat_map_concat_map. f_equal.
    apply map_ext. intros p. now rewrite map_map.
  - unfold ts, generate_pdf_pages. rewrite length_flat_map. f_equal.
    apply map_ext. intros p. now rewrite !length_map, length_seq.
  - intros t. unfold ts. rewrite generate_split_in. split.
    + intros (p & k & Hp & Hk & ->). exists p, k. repeat split; auto.
    + intros (p & k & Hp & Hk & -> & _). eauto.
Qed.

(** [generate_pdf_pages] without [split_pages]: one task per PDF, in the
    order of the paths.  Its [pages] list has one entry per page of that PDF,
    in page order, each with the page's data URI, [view_id] ["image_manual"]
    and the page number in [meta]; the task's [config] asks for the
    ["pages"] view. *)
Theorem generate_pdf_pages_bundled :
  forall (b64encode : encoded -> pystr) (n_pages : fpath -> nat)
         (input_hash task_hash : json -> Z) (paths : list fpath),
  let ts := generate_pdf_pages b64encode n_pages input_hash task_hash paths false in
  List.length ts = List.length paths
  /\ forall i p, nth_error paths i = Some p ->
       exists t ps, nth_error ts i = Some t
         /\ get t (s "pages") = Ok (JList ps) /\ List.length ps = n_pages p
         /\ get t (s "config") = Ok (JObj [(s "view_id", JStr (s "pages"))])
         /\ forall k pg, nth_error ps k = Some pg ->
              get pg (s "image") = Ok (JStr (page_to_image b64encode (path_str p) (Z.of_nat k)))
              /\ get pg (s "view_id") = Ok (JStr (s "image_manual"))
              /\ get pg (s "meta") = Ok (JObj [(s "title", JStr (fp_name p));
                                               (s "page", JInt (Z.of_nat k))]).
Proof.
  intros b64encode n_pages input_hash task_hash paths ts.
  assert (Hts : ts = map (fun pdf_path =>
            set_hashes input_hash task_hash
              (JObj [(s "pages", JList (map (fun page => json_set page (s "view_id")
                                         (JStr (s "image_manual")))
                                         (map (page_dict b64encode pdf_path)
                                            (seq 0 (n_pages pdf_path)))));
                     (s "meta", JObj [(s "title", JStr (fp_name pdf_path))]);
                     (s "config", JObj [(s "view_id", JStr (s "pages"))])])) paths).
  { unfold ts, generate_pdf_pages. induction paths as [|p r IH]; simpl; [reflexivity|].
    now rewrite IH. }
  rewrite Hts. split; [apply length_map|].
  intros i p Hi. rewrite nth_error_map, Hi. simpl.
  eexists _, _. split; [reflexivity|]. split; [reflexivity|].
  split; [now rewrite !length_map, length_seq|]. split; [reflexivity|].
  intros k pg Hk. rewrite map_map, nth_error_map in Hk.
  destruct (nth_error (seq 0 (n_pages p)) k) as [k'|] eqn:Ek; [|discriminate].
  assert (k' = k) as ->.
  { apply nth_error_In in Ek as Hin. apply in_seq in Hin.
    rewrite nth_error_seq in Ek. destruct (k <? n_pages p) eqn:E; [|discriminate].
    simpl in Ek. injection Ek. lia. }
  injection Hk as <-. repeat split; reflexivity.
Qed.

(** [before_db] of [pdf.image.manual] (with [--remove-base64]) on the tasks
    of [--split-pages]: it never fails, and each task loses its [image] and
    keeps every other field. *)
Theorem image_before_db_split_ok :
  forall (b64encode : encoded -> pystr) (n_pages : fpath -> nat)
         (input_hash task_hash : json -> Z) (paths : list fpath),
  let ts := generate_pdf_pages b64encode n_pages input_hash task_hash paths true in
  exists out, before_db_image ts = Ok out
    /\ Forall2 (fun t t' => get t' (s "image") = Err (KeyError (s "image"))
                            /\ forall k, str_eqb k (s "image") = false -> get t' k = get t k)
               ts out.
Proof.
  intros. apply map_res_forall. intros t Ht.
  apply generate_split_in in Ht as (p & k & _ & _ & ->).
  set (t := set_hashes input_hash task_hash (page_dict b64encode p k)).
  assert (Hobj : exists kvs, t = JObj kvs) by (eexists; reflexivity).
  destruct Hobj as [kvs Ht].
  assert (Himg : dict_get str_eqb (s "image") kvs
                 = Some (JStr (data_uri_prefix
                               ++ b64encode (pil_save (Rendered (path_str p) (Z.of_nat k) 1)
                                               JPEG)))).
  { assert (Hg : get t (s "image") = Ok (JStr (data_uri_prefix
                 ++ b64encode (pil_save (Rendered (path_str p) (Z.of_nat k) 1) JPEG))))
      by reflexivity.
    rewrite Ht in Hg. cbn [get] in Hg.
    destruct (dict_get str_eqb (s "image") kvs); [now injection Hg as -> | discriminate]. }
  assert (Hpages : dict_get str_eqb (s "pages") kvs = None).
  { assert (Hg : get t (s "pages") = Err (KeyError (s "pages"))) by reflexivity.
    rewrite Ht in Hg. cbn [get] in Hg.
    destruct (dict_get str_eqb (s "pages") kvs); [discriminate | reflexivity]. }
  assert (Hgone : dict_get str_eqb (s "image") (dict_del str_eqb (s "image") kvs) = None).
  { assert (Hk : kvs = match t with JObj l => l | _ => [] end) by now rewrite Ht.
    rewrite Hk. unfold t. vm_compute. reflexivity. }
  rewrite Ht. exists (JObj (dict_del str_eqb (s "image") kvs)).
  unfold before_db_image_one, strip_image. cbn [get bind]. rewrite Himg. cbv iota.
  cbn [json_del]. rewrite ?Himg. cbn [bind]. cbv iota.
  match goal with |- context [if startswith ?a ?b then _ else _] =>
    replace (startswith a b) with true by reflexivity end.
  cbn [bind get_default get].
  rewrite (dict_get_del_other str_eqb str_eqb_spec (s "pages") (s "image") kvs)
    by reflexivity.
  rewrite Hpages. cbn [bind map_res get]. split; [reflexivity|]. split; [simpl; now rewrite Hgone|].
  intros key Hk. now apply get_obj_del.
Qed.

(** ** [disable_tokens] *)

Lemma disable_token_obj (disabled : list pystr) (tk : list (pystr * json)) :
  exists t', disable_token disabled (JObj tk) = Ok t'
    /\ (forall k, str_eqb k (s "disabled") = false -> get t' k = get (JObj tk) k)
    /\ (forall l, get (JObj tk) (s "layout") = Ok (JStr l) -> str_in l disabled = true ->
          get t' (s "disabled") = Ok (JBool true))
    /\ ((~ exists l, get (JObj tk) (s "layout") = Ok (JStr l) /\ str_in l disabled = true) ->
          t' = JObj tk).
Proof.
  unfold disable_token. cbn [get].
  set (hit := match dict_get str_eqb (s "layout") tk with
              | Some (JStr l) => str_in l disabled | _ => false end).
  eexists. split; [reflexivity|]. split; [|split].
  - intros k Hk. destruct hit; [|reflexivity].
    cbn [json_set]. rewrite get_obj_set, Hk. reflexivity.
  - intros l Hl Hin.
    assert (Hh : hit = true).
    { unfold hit. destruct (dict_get str_eqb (s "layout") tk) as [v|]; [|discriminate].
      injection Hl as ->. exact Hin. }
    rewrite Hh. cbn [json_set]. rewrite get_obj_set, str_eqb_refl. reflexivity.
  - intros Hno. destruct hit eqn:Hh; [|reflexivity].
    exfalso. apply Hno. unfold hit in Hh.
    destruct (dict_get str_eqb (s "layout") tk) as [[]|]; try discriminate.
    eexists. split; [reflexivity | exact Hh].
Qed.

Lemma disable_token_map_err (disabled : list pystr) (toks : list json) (t : json) :
  In t toks -> (forall tk, t <> JObj tk) ->
  map_res (disable_token disabled) toks = Err AttributeError.
Proof.
  induction toks as [|x r IH]; intros Hin Hno; [destruct Hin|].
  simpl. destruct x as [| | | | |tk]; try reflexivity.
  destruct (disable_token_obj disabled tk) as (t' & -> & _). simpl.
  destruct Hin as [<- | Hin]; [exfalso; exact (Hno tk eq_refl)|].
  rewrite (IH Hin Hno). reflexivity.
Qed.

(** [disable_tokens], for one example: an example without [tokens] is
    passed on unchanged.  When [tokens] is a list of dicts, it is replaced
    in place by a list of the same length in which each token keeps all its
    other keys, gets [disabled] set to true when its [layout] is a string
    in the [disabled] list, and is left as it is otherwise.  A token that
    is not a dict makes the generator raise [AttributeError]. *)
Theorem disable_one_tokens :
  forall (disabled : list pystr) (kvs : list (pystr * json)),
  (dict_get str_eqb (s "tokens") kvs = None ->
     disable_one disabled (JObj kvs) = Ok (JObj kvs))
  /\ forall toks, dict_get str_eqb (s "tokens") kvs = Some (JList toks) ->
     (Forall (fun t => exists tk, t = JObj tk) toks ->
        exists toks',
          disable_one disabled (JObj kvs)
            = Ok (JObj (dict_set str_eqb (s "tokens") (JList toks') kvs))
          /\ Forall2 (fun t t' =>
                (forall k, str_eqb k (s "disabled") = false -> get t' k = get t k)
                /\ (forall l, get t (s "layout") = Ok (JStr l) -> str_in l disabled = true ->
                      get t' (s "disabled") = Ok (JBool true))
                /\ ((~ exists l, get t (s "layout") = Ok (JStr l)
                                 /\ str_in l disabled = true) -> t' = t))
               toks toks')
     /\ (forall t, In t toks -> (forall tk, t <> JObj tk) ->
           disable_one disabled (JObj kvs) = Err AttributeError).
Proof.
  intros disabled kvs. split.
  - intros H. unfold disable_one. cbn [get_default get bind json_iter map_res].
    rewrite H. reflexivity.
  - intros toks Htoks. split.
    + intros Hall.
      destruct (map_res_forall (disable_token disabled)
                  (fun t t' =>
                     (forall k, str_eqb k (s "disabled") = false -> get t' k = get t k)
                     /\ (forall l, get t (s "layout") = Ok (JStr l) ->
                           str_in l disabled = true -> get t' (s "disabled") = Ok (JBool true))
                     /\ ((~ exists l, get t (s "layout") = Ok (JStr l)
                                      /\ str_in l disabled = true) -> t' = t))
                  toks) as (toks' & Hm & HF).
      { intros x Hx. rewrite Forall_forall in Hall. destruct (Hall x Hx) as [tk ->].
        destruct (disable_token_obj disabled tk) as (t' & Ht' & H1 & H2 & H3).
        exists t'. auto. }
      exists toks'. split; [|exact HF].
      unfold disable_one. cbn [get_default get bind json_iter]. rewrite Htoks.
      cbn [bind json_iter]. rewrite Hm. reflexivity.
    + intros t Hin Hno. unfold disable_one. cbn [get_default get bind]. rewrite Htoks.
      cbn [bind json_iter]. rewrite (disable_token_map_err disabled toks t Hin Hno).
      reflexivity.
Qed.

(** ** [remove_preview] *)

Section DictLemmas2.
Context {K V : Type} (eqk : K -> K -> bool).
Hypothesis eqk_spec : forall a b, eqk a b = true <-> a = b.

Lemma dict_set_get_same (k : K) (v : V) (d : list (K * V)) :
  dict_get eqk k d = Some v -> dict_set eqk k v d = d.
Proof.
  induction d as [|[k0 v0] d IH]; simpl; [discriminate|].
  destruct (eqk k k0); [now injection 1 as -> | intros H; now rewrite IH].
Qed.

Lemma dict_del_absent (k : K) (d : list (K * V)) :
  dict_get eqk k d = None -> dict_del eqk k d = d.
Proof.
  induction d as [|[k0 v0] d IH]; simpl; [reflexivity|].
  destruct (eqk k k0); [discriminate | intros H; now rewrite IH].
Qed.

Lemma dict_del_keys_incl (k x : K) (d : list (K * V)) :
  In x (map fst (dict_del eqk k d)) -> In x (map fst d).
Proof.
  induction d as [|[k0 v0] d IH]; simpl; [tauto|].
  destruct (eqk k k0); [tauto|]. simpl. tauto.
Qed.

Lemma dict_del_keys_nodup (k : K) (d : list (K * V)) :
  NoDup (map fst d) -> NoDup (map fst (dict_del eqk k d)).
Proof.
  induction d as [|[k0 v0] d IH]; simpl; intros Hnd; [constructor|].
  inversion Hnd as [|? ? Hn Hnd']; subst.
  destruct (eqk k k0); [exact Hnd'|]. simpl. constructor; [|now apply IH].
  intros Hin. apply Hn. eapply dict_del_keys_incl. exact Hin.
Qed.
End DictLemmas2.

Lemma image_step (kvs1 : list (pystr * json)) :
  (has_image <- json_in (s "image") (JObj kvs1) ;;
   if has_image then json_del (JObj kvs1) (s "image") else Ok (JObj kvs1))
  = Ok (JObj (dict_del str_eqb (s "image") kvs1)).
Proof.
  cbn [json_in bind json_del]. destruct (dict_get str_eqb (s "image") kvs1) eqn:Hi.
  - reflexivity.
  - now rewrite (dict_del_absent str_eqb _ _ Hi).
Qed.

Lemma remove_preview_one_obj (view_id : pystr) (kvs : list (pystr * json)) :
  (forall c, dict_get str_eqb (s "config") kvs = Some c -> exists ckvs, c = JObj ckvs) ->
  remove_preview_one view_id (JObj kvs)
  = Ok (JObj (dict_del str_eqb (s "image")
      (match dict_get str_eqb (s "config") kvs with
       | Some (JObj ckvs) =>
           match dict_get str_eqb (s "blocks") ckvs with
           | Some _ => dict_set str_eqb (s "config")
                         (JObj (dict_set str_eqb (s "blocks")
                                  (JList [JObj [(s "view_id", JStr view_id)]]) ckvs)) kvs
           | None => kvs
           end
       | _ => kvs
       end))).
Proof.
  intros Hcfg. unfold remove_preview_one. cbn [get_default bind].
  destruct (dict_get str_eqb (s "config") kvs) as [c|] eqn:Hc.
  - destruct (Hcfg c eq_refl) as [ckvs ->]. cbn [json_in bind].
    destruct (dict_get str_eqb (s "blocks") ckvs); cbn [bind json_set]; apply image_step.
  - cbn [json_in bind dict_get]. apply image_step.
Qed.

(** [remove_preview], for one example whose keys are distinct and whose
    [config], if present, is a dict: the example comes out without an
    [image] key and with distinct keys; every key other than [image] and
    [config] keeps its value; an absent [config] stays absent, and a
    [config] dict gets its [blocks] (if it has them) replaced by the single
    block [{"view_id": view_id}], its other keys unchanged.  Running the
    step again on its output changes nothing. *)
Theorem remove_preview_one_spec :
  forall (view_id : pystr) (kvs : list (pystr * json)),
  NoDup (map fst kvs) ->
  (forall c, dict_get str_eqb (s "config") kvs = Some c -> exists ckvs, c = JObj ckvs) ->
  exists kvs',
    remove_preview_one view_id (JObj kvs) = Ok (JObj kvs')
    /\ NoDup (map fst kvs')
    /\ dict_get str_eqb (s "image") kvs' = None
    /\ (forall k, str_eqb k (s "image") = false -> str_eqb k (s "config") = false ->
          dict_get str_eqb k kvs' = dict_get str_eqb k kvs)
    /\ (dict_get str_eqb (s "config") kvs = None -> dict_get str_eqb (s "config") kvs' = None)
    /\ (forall ckvs, dict_get str_eqb (s "config") kvs = Some (JObj ckvs) ->
          dict_get str_eqb (s "config") kvs'
          = Some (JObj (match dict_get str_eqb (s "blocks") ckvs with
                        | Some _ => dict_set str_eqb (s "blocks")
                                      (JList [JObj [(s "view_id", JStr view_id)]]) ckvs
                        | None => ckvs
                        end)))
    /\ remove_preview_one view_id (JObj kvs') = Ok (JObj kvs').
Proof.
  intros view_id kvs Hnd Hcfg.
  set (B := JList [JObj [(s "view_id", JStr view_id)]]).
  rewrite (remove_preview_one_obj view_id kvs Hcfg).
  set (kvs1 := match dict_get str_eqb (s "config") kvs with
               | Some (JObj ckvs) =>
                   match dict_get str_eqb (s "blocks") ckvs with
                   | Some _ => dict_set str_eqb (s "config")
                                 (JObj (dict_set str_eqb (s "blocks") B ckvs)) kvs
                   | None => kvs
                   end
               | _ => kvs
               end).
  assert (Hnd1 : NoDup (map fst kvs1)).
  { unfold kvs1. destruct (dict_get str_eqb (s "config") kvs) as [[]|]; try exact Hnd.
    destruct (dict_get str_eqb (s "blocks") kvs0); [|exact Hnd].
    apply (dict_set_nodup str_eqb str_eqb_spec); exact Hnd. }
  assert (Hother : forall k, str_eqb k (s "config") = false ->
                     dict_get str_eqb k kvs1 = dict_get str_eqb k kvs).
  { intros k Hk. unfold kvs1.
    destruct (dict_get str_eqb (s "config") kvs) as [[]|]; try reflexivity.
    destruct (dict_get str_eqb (s "blocks") kvs0); [|reflexivity].
    rewrite (dict_get_set_gen str_eqb str_eqb_spec), Hk. reflexivity. }
  assert (Hcfg1 : dict_get str_eqb (s "config") kvs1
                  = match dict_get str_eqb (s "config") kvs with
                    | Some (JObj ckvs) =>
                        Some (JObj (match dict_get str_eqb (s "blocks") ckvs with
                                    | Some _ => dict_set str_eqb (s "blocks") B ckvs
                                    | None => ckvs
                                    end))
                    | c => c
                    end).
  { unfold kvs1. destruct (dict_get str_eqb (s "config") kvs) as [[]|] eqn:Hc; try exact Hc.
    destruct (dict_get str_eqb (s "blocks") kvs0); [|exact Hc].
    rewrite (dict_get_set_gen str_eqb str_eqb_spec), str_eqb_refl. reflexivity. }
  exists (dict_del str_eqb (s "image") kvs1).
  split; [reflexivity|]. split; [apply (dict_del_keys_nodup str_eqb); exact Hnd1|].
  split; [apply (dict_del_nodup str_eqb str_eqb_spec); exact Hnd1|].
  split.
  { intros k Hi Hk. rewrite (dict_get_del_other str_eqb str_eqb_spec) by exact Hi.
    now apply Hother. }
  assert (Hcfg2 : dict_get str_eqb (s "config") (dict_del str_eqb (s "image") kvs1)
                  = dict_get str_eqb (s "config") kvs1).
  { apply (dict_get_del_other str_eqb str_eqb_spec); reflexivity. }
  split; [rewrite Hcfg2, Hcfg1; intros ->; reflexivity|].
  split; [rewrite Hcfg2, Hcfg1; intros ckvs ->; reflexivity|].
  assert (Himg : dict_get str_eqb (s "image") (dict_del str_eqb (s "image") kvs1) = None)
    by (apply (dict_del_nodup str_eqb str_eqb_spec); exact Hnd1).
  assert (Hcfg3 : forall c, dict_get str_eqb (s "config")
                              (dict_del str_eqb (s "image") kvs1) = Some c ->
                            exists ckvs, c = JObj ckvs).
  { rewrite Hcfg2, Hcfg1. intros c Hc.
    destruct (dict_get str_eqb (s "config") kvs) as [c0|] eqn:Hc0; [|discriminate].
    destruct (Hcfg c0 eq_refl) as [ckvs ->]. injection Hc as <-. eexists; reflexivity. }
  rewrite (remove_preview_one_obj view_id _ Hcfg3). do 2 f_equal.
  rewrite Hcfg2, Hcfg1.
  destruct (dict_get str_eqb (s "config") kvs) as [[]|] eqn:Hc; try now apply (dict_del_absent str_eqb).
  destruct (dict_get str_eqb (s "blocks") kvs0) eqn:Hb.
  - rewrite (dict_get_set_gen str_eqb str_eqb_spec), str_eqb_refl. fold B.
    rewrite (dict_set_get_same str_eqb (s "blocks") B (dict_set str_eqb (s "blocks") B kvs0))
      by (rewrite (dict_get_set_gen str_eqb str_eqb_spec), str_eqb_refl; reflexivity).
    rewrite (dict_set_get_same str_eqb).
    + now apply (dict_del_absent str_eqb).
    + rewrite Hcfg2, Hcfg1, ?Hc, ?Hb. reflexivity.
  - rewrite Hb. now apply (dict_del_absent str_eqb).
Qed.

(** ** Page images in [get_full_stream] *)

Lemma full_page_shown (d : ldoc) (images : option (list pystr)) (i : nat)
    (pl : page_layout) (sps : list lspan) :
  sps <> [] ->
  (forall e, page_image false images i = Err e -> full_page false d images i pl sps = Err e)
  /\ (forall img, page_image false images i = Ok img ->
        exists pg, full_page false d images i pl sps = Ok pg /\ pg_image pg = img).
Proof.
  intros Hne. destruct sps as [|sp sps']; [congruence|].
  unfold full_page. cbn [bind].
  destruct (rev (sp :: sps')) as [|l r] eqn:Hr.
  - exfalso. apply (f_equal (@List.length _)) in Hr. rewrite length_rev in Hr. discriminate.
  - cbn [bind]. split.
    + intros e ->. reflexivity.
    + intros img ->. eexists. split; reflexivity.
Qed.

Lemma full_pages_from_shown (d : ldoc) (imgs : list pystr) (i : nat)
    (pages : list (page_layout * list lspan)) :
  Forall (fun p => snd p <> []) pages ->
  (imgs = [] ->
     snd (full_pages_from false d (Some imgs) i pages) = None
     /\ List.length (fst (full_pages_from false d (Some imgs) i pages)) = List.length pages
     /\ Forall (fun p => pg_image (snd p) = None) (fst (full_pages_from false d (Some imgs) i pages)))
  /\ (imgs <> [] -> i + List.length pages <= List.length imgs ->
     snd (full_pages_from false d (Some imgs) i pages) = None
     /\ List.length (fst (full_pages_from false d (Some imgs) i pages)) = List.length pages
     /\ forall j pl pg, nth_error (fst (full_pages_from false d (Some imgs) i pages)) j = Some (pl, pg) ->
          pg_image pg = nth_error imgs (i + j))
  /\ (imgs <> [] -> i <= List.length imgs < i + List.length pages ->
     snd (full_pages_from false d (Some imgs) i pages) = Some IndexError
     /\ List.length (fst (full_pages_from false d (Some imgs) i pages)) = List.length imgs - i).
Proof.
  revert i. induction pages as [|[pl sps] r IH]; intros i Hall.
  - cbn [full_pages_from fst snd List.length]. split; [|split].
    + intros _. repeat split; constructor.
    + intros _ _. repeat split. intros [|j] ? ? H; discriminate.
    + intros _ H. lia.
  - inversion Hall as [|? ? Hne Hr]; subst. simpl in Hne.
    destruct (IH (S i) Hr) as (IH1 & IH2 & IH3).
    destruct (full_page_shown d (Some imgs) i pl sps Hne) as [Herr Hok].
    cbn [full_pages_from].
    split; [|split].
    + intros ->.
      destruct (Hok None eq_refl) as (pg & Hpg & Himg). rewrite Hpg.
      destruct (IH1 eq_refl) as (He & Hl & Hf).
      destruct (full_pages_from false d (Some []) (S i) r) as [rest e]. simpl in *.
      repeat split; auto.
    + intros Hn Hlen. cbn [List.length] in Hlen.
      assert (Hi : nth_error imgs i = Some (nth i imgs [])).
      { apply nth_error_nth'. lia. }
      assert (Hpi : page_image false (Some imgs) i = Ok (Some (nth i imgs []))).
      { unfold page_image. destruct imgs as [|x xs]; [congruence|]. cbv beta iota. now rewrite Hi. }
      destruct (Hok _ Hpi) as (pg & Hpg & Himg). rewrite Hpg.
      destruct (IH2 Hn ltac:(lia)) as (He & Hl & Hj).
      destruct (full_pages_from false d (Some imgs) (S i) r) as [rest e]. simpl in *.
      split; [exact He|]. split; [now rewrite Hl|].
      intros [|j] pl' pg' H; simpl in H.
      * injection H as <- <-. rewrite Himg, Nat.add_0_r. now rewrite Hi.
      * rewrite (Hj j pl' pg' H). replace (i + S j) with (S (i + j)) by lia. reflexivity.
    + intros Hn Hlen. cbn [List.length] in Hlen.
      destruct (Nat.eq_dec i (List.length imgs)) as [Heq|Hlt].
      * assert (Hpi : page_image false (Some imgs) i = Err IndexError).
        { unfold page_image. destruct imgs as [|x xs]; [congruence|]. cbv beta iota.
          replace (nth_error (x :: xs) i) with (@None pystr); [reflexivity|].
          symmetry. apply nth_error_None. lia. }
        rewrite (Herr _ Hpi). simpl. split; [reflexivity | lia].
      * assert (Hi : nth_error imgs i = Some (nth i imgs [])).
        { apply nth_error_nth'. lia. }
        assert (Hpi : page_image false (Some imgs) i = Ok (Some (nth i imgs []))).
        { unfold page_image. destruct imgs as [|x xs]; [congruence|]. cbv beta iota. now rewrite Hi. }
        destruct (Hok _ Hpi) as (pg & Hpg & _). rewrite Hpg.
        destruct (IH3 Hn ltac:(lia)) as (He & Hl).
        destruct (full_pages_from false d (Some imgs) (S i) r) as [rest e]. simpl in *.
        split; [exact He | lia].
Qed.

Lemma nth_error_pdf_to_images (b64encode : encoded -> pystr) (path : pystr) (n k : nat) :
  k < n -> nth_error (pdf_to_images b64encode path n) k
           = Some (page_to_image b64encode path (Z.of_nat k)).
Proof.
  intros Hk. unfold pdf_to_images. rewrite nth_error_map, nth_error_seq.
  destruct (Nat.ltb_spec k n); [reflexivity | lia].
Qed.

Lemma length_pdf_to_images (b64encode : encoded -> pystr) (path : pystr) (n : nat) :
  List.length (pdf_to_images b64encode path n) = n.
Proof. unfold pdf_to_images. now rewrite length_map, length_seq. Qed.

Lemma task_pages_split (pgs : list (page_layout * lpage)) (title : pystr) :
  flat_map task_pages (map (fun p => PageTask (snd p) title (page_no (fst p))) pgs)
  = map snd pgs.
Proof. induction pgs as [|p r IH]; simpl; [reflexivity | now rewrite IH]. Qed.

(** [get_full_stream] with the preview shown, for a file whose layout pages
    all have spans: the i-th page dictionary (counting across the tasks of
    the file, with or without [--split-pages]) carries the image of the
    i-th page the PDF renders, as long as the layout has no more pages than
    the PDF.  If the layout has more pages than a PDF with at least one
    page, [images[i]] raises [IndexError] at the first page past the end,
    after one task per rendered page with [--split-pages] and with no task
    otherwise.  A PDF with no page gives pages without an image. *)
Theorem full_stream_preview_images :
  forall (layout : fpath -> ldoc) (b64encode : encoded -> pystr) (n_pages : fpath -> nat)
         (split_pages : bool) (fp : fpath),
  let pages := doc_pages (layout fp) in
  let out := full_stream_file layout b64encode n_pages split_pages false fp in
  Forall (fun p => snd p <> []) pages ->
  (List.length pages <= n_pages fp ->
     snd out = None
     /\ List.length (flat_map task_pages (fst out)) = List.length pages
     /\ forall i pg, nth_error (flat_map task_pages (fst out)) i = Some pg ->
          pg_image pg = Some (page_to_image b64encode (path_str fp) (Z.of_nat i)))
  /\ (0 < n_pages fp < List.length pages ->
     snd out = Some IndexError
     /\ List.length (fst out) = if split_pages then n_pages fp else 0)
  /\ (n_pages fp = 0 ->
     snd out = None /\ Forall (fun pg => pg_image pg = None) (flat_map task_pages (fst out))).
Proof.
  intros layout b64encode n_pages split_pages fp pages out Hall.
  unfold out, full_stream_file, file_images. cbn [negb].
  set (imgs := pdf_to_images b64encode (path_str fp) (n_pages fp)).
  assert (Hlen : List.length imgs = n_pages fp) by apply length_pdf_to_images.
  destruct (full_pages_from_shown (layout fp) imgs 0 pages Hall) as (H1 & H2 & H3).
  fold pages.
  destruct (full_pages_from false (layout fp) (Some imgs) 0 pages) as [pgs e] eqn:Hf.
  cbn [fst snd] in H1, H2, H3.
  assert (Hpages : forall (P : list lpage -> Prop),
            e = None -> P (map snd pgs) ->
            P (flat_map task_pages
                 (fst (if split_pages
                       then (map (fun p => PageTask (snd p) (path_stem (fp_name fp))
                                             (page_no (fst p))) pgs, e)
                       else match e with
                            | Some e0 => ([], Some e0)
                            | None => ([DocTask (map snd pgs) (path_stem (fp_name fp))], None)
                            end)))).
  { intros P -> HP. destruct split_pages; cbn [fst].
    - now rewrite task_pages_split.
    - simpl. now rewrite app_nil_r. }
  assert (Hsnd : e = None -> snd (if split_pages
                   then (map (fun p => PageTask (snd p) (path_stem (fp_name fp))
                                         (page_no (fst p))) pgs, e)
                   else match e with
                        | Some e0 => ([], Some e0)
                        | None => ([DocTask (map snd pgs) (path_stem (fp_name fp))], None)
                        end) = None).
  { intros ->. now destruct split_pages. }
  split; [|split].
  - intros Hle. destruct imgs as [|x xs] eqn:Himgs.
    + destruct (H1 eq_refl) as (He & Hl & _).
      assert (Hp0 : List.length pages = 0) by (simpl in Hlen; lia).
      destruct pgs as [|? ?]; [|simpl in Hl; lia].
      split; [now apply Hsnd|].
      apply (Hpages (fun l => List.length l = List.length pages
                      /\ forall i pg, nth_error l i = Some pg ->
                           pg_image pg = Some (page_to_image b64encode (path_str fp)
                                                 (Z.of_nat i)))); [exact He|].
      split; [now rewrite Hp0|]. intros [|i] pg H; discriminate.
    + rewrite <- Himgs in *.
      assert (Hn : imgs <> []) by (rewrite Himgs; discriminate).
      destruct (H2 Hn ltac:(lia)) as (He & Hl & Hj).
      split; [now apply Hsnd|].
      apply (Hpages (fun l => List.length l = List.length pages
                      /\ forall i pg, nth_error l i = Some pg ->
                           pg_image pg = Some (page_to_image b64encode (path_str fp)
                                                 (Z.of_nat i)))); [exact He|].
      split; [now rewrite length_map|].
      intros i pg H. rewrite nth_error_map in H.
      destruct (nth_error pgs i) as [[pl pg']|] eqn:Hi; [|discriminate].
      injection H as <-. rewrite (Hj i pl pg' Hi).
      assert (i < List.length pgs) by (apply nth_error_Some; congruence).
      apply nth_error_pdf_to_images. lia.
  - intros Hlt.
    assert (Hn : imgs <> []) by (intros Hnil; rewrite Hnil in Hlen; simpl in Hlen; lia).
    destruct (H3 Hn ltac:(lia)) as (He & Hl). subst e.
    destruct split_pages; cbn [fst snd]; split; try reflexivity.
    rewrite length_map, Hl, Hlen. lia.
  - intros H0.
    assert (Hnil : imgs = []) by (destruct imgs; [reflexivity | simpl in Hlen; lia]).
    destruct (H1 Hnil) as (He & _ & Hnone).
    split; [now apply Hsnd|].
    apply (Hpages (Forall (fun pg => pg_image pg = None))); [exact He|].
    apply Forall_map. exact Hnone.
Qed.

(** ** [_validate_ocr_example] *)

(** [_validate_ocr_example] passes examples on unchanged and in order: what
    it yields is a prefix of its input made of examples that have [meta],
    [path] and [meta["page"]].  It ends without an exception exactly when
    every example has them, and then yields the whole input; otherwise it
    stops at the first example that lacks one, with that example's error. *)
Theorem validate_ocr_example_prefix :
  forall stream : list json,
  let (ok, e) := validate_ocr_example stream in
  Forall (fun eg => validate_ocr_one eg = Ok tt) ok
  /\ (e = None <-> Forall (fun eg => validate_ocr_one eg = Ok tt) stream)
  /\ (e = None -> ok = stream)
  /\ (forall x, e = Some x ->
        exists eg rest, stream = ok ++ eg :: rest /\ validate_ocr_one eg = Err x).
Proof.
  induction stream as [|eg r IH]; simpl.
  - repeat split; try constructor; try discriminate.
  - destruct (validate_ocr_one eg) as [[]|x] eqn:Hv.
    + destruct (validate_ocr_example r) as [ok e].
      destruct IH as (Hok & Hiff & Hall & Herr).
      split; [constructor; assumption|].
      split; [|split].
      * rewrite Hiff. split; [intros H; constructor; assumption|].
        intros H. inversion H; assumption.
      * intros He. now rewrite (Hall He).
      * intros y Hy. destruct (Herr y Hy) as (eg' & rest & -> & Hv').
        exists eg', rest. split; [reflexivity | exact Hv'].
    + split; [constructor|]. split; [|split].
      * split; [discriminate|]. intros H. inversion H; congruence.
      * discriminate.
      * intros y Hy. injection Hy as <-. exists eg, r. split; [reflexivity | exact Hv].
Qed.

(** ** Chained stream steps of [pdf.spans.manual] *)

Lemma stream_map_compose (f g : json -> res json) (xs : list json) :
  (let (ys, e1) := stream_map f xs in
   let (zs, e2) := stream_map g ys in
   (zs, match e2 with Some _ => e2 | None => e1 end))
  = stream_map (fun x => y <- f x ;; g y) xs.
Proof.
  induction xs as [|x r IH]; simpl; [reflexivity|].
  destruct (f x) as [y|e]; simpl; [|reflexivity].
  destruct (stream_map f r) as [ys e1]. simpl.
  destruct (g y) as [z|e]; simpl; [|reflexivity].
  destruct (stream_map g ys) as [zs e2]. rewrite <- IH.
  destruct e2; reflexivity.
Qed.

Lemma stream_apply_compose (f g : json -> res json) (st : list json * option pyexc) :
  stream_apply g (stream_apply f st) = stream_apply (fun x => y <- f x ;; g y) st.
Proof.
  destruct st as [xs e0]. unfold stream_apply. rewrite <- stream_map_compose.
  destruct (stream_map f xs) as [ys e1]. cbv beta iota.
  destruct e1; cbv beta iota; destruct (stream_map g ys) as [zs e2];
    destruct e2; reflexivity.
Qed.

Lemma stream_map_in (f : json -> res json) (xs : list json) (z : json) :
  In z (fst (stream_map f xs)) -> exists x, In x xs /\ f x = Ok z.
Proof.
  induction xs as [|x r IH]; simpl; [tauto|].
  destruct (f x) as [y|e] eqn:Hf; simpl; [|tauto].
  destruct (stream_map f r) as [ys e1] eqn:Hr. simpl.
  intros [<- | Hin].
  - exists x. auto.
  - destruct (IH Hin) as (x' & Hx' & Hfx'). exists x'. auto.
Qed.

Lemma stream_apply_in (f : json -> res json) (st : list json * option pyexc) (z : json) :
  In z (fst (stream_apply f st)) -> exists x, In x (fst st) /\ f x = Ok z.
Proof.
  destruct st as [xs e0]. unfold stream_apply. cbv beta iota.
  destruct (stream_map f xs) as [ys e1] eqn:Hm.
  intros Hin. change (exists x, In x xs /\ f x = Ok z). apply stream_map_in. rewrite Hm.
  destruct e1; exact Hin.
Qed.

Lemma disable_one_shape (disabled : list pystr) (kvs : list (pystr * json)) (eg' : json) :
  disable_one disabled (JObj kvs) = Ok eg' ->
  exists kvs', eg' = JObj kvs'
    /\ (NoDup (map fst kvs) -> NoDup (map fst kvs'))
    /\ dict_get str_eqb (s "config") kvs' = dict_get str_eqb (s "config") kvs.
Proof.
  unfold disable_one. cbn [get_default get bind].
  destruct (dict_get str_eqb (s "tokens") kvs) as [v|] eqn:Hv; cbn [bind json_iter map_res].
  - destruct (json_iter v) as [xs|]; cbn [bind]; [|discriminate].
    destruct (map_res (disable_token disabled) xs) as [xs'|]; cbn [bind]; [|discriminate].
    destruct v; intros H; injection H as <-; eexists; (split; [reflexivity|]);
      (split; [intros Hnd; try apply (dict_set_nodup str_eqb str_eqb_spec); exact Hnd|]);
      try reflexivity.
    cbn [json_set]. rewrite (dict_get_set_gen str_eqb str_eqb_spec). reflexivity.
  - intros H. injection H as <-. exists kvs. auto.
Qed.

(** [pdf.spans.manual] with [--hide-preview] (and without [--add-ents]):
    when every source example is a dict with distinct keys whose [config],
    if any, is a dict, no task the recipe's stream yields has an [image]
    key, whether or not tokens are disabled with [--disable]. *)
Theorem spans_manual_hide_preview_no_image :
  forall (ner_step : list json * option pyexc -> list json * option pyexc)
         (disable : list pystr) (xs : list json) (e0 : option pyexc),
  Forall (fun eg => exists kvs, eg = JObj kvs /\ NoDup (map fst kvs)
            /\ forall c, dict_get str_eqb (s "config") kvs = Some c -> exists ckvs, c = JObj ckvs)
         xs ->
  Forall (fun eg => get eg (s "image") = Err (KeyError (s "image")))
         (fst (spans_manual_stream ner_step false disable true (xs, e0))).
Proof.
  intros ner_step disable xs e0 Hall. apply Forall_forall. intros z Hz.
  rewrite Forall_forall in Hall.
  assert (Hrp : forall kvs, NoDup (map fst kvs) ->
            (forall c, dict_get str_eqb (s "config") kvs = Some c -> exists ckvs, c = JObj ckvs) ->
            remove_preview_one (s "spans_manual") (JObj kvs) = Ok z ->
            get z (s "image") = Err (KeyError (s "image"))).
  { intros kvs Hnd Hcfg H.
    destruct (remove_preview_one_spec (s "spans_manual") kvs Hnd Hcfg)
      as (kvs' & Hr & _ & Himg & _).
    rewrite Hr in H. injection H as <-. simpl. now rewrite Himg. }
  unfold spans_manual_stream in Hz. destruct disable as [|d ds].
  - apply stream_apply_in in Hz as (x & Hx & Hfx). simpl in Hx.
    destruct (Hall x Hx) as (kvs & -> & Hnd & Hcfg). exact (Hrp kvs Hnd Hcfg Hfx).
  - rewrite stream_apply_compose in Hz.
    apply stream_apply_in in Hz as (x & Hx & Hfx). simpl in Hx.
    destruct (Hall x Hx) as (kvs & -> & Hnd & Hcfg).
    destruct (disable_one (d :: ds) (JObj kvs)) as [eg'|e] eqn:Hd; [|discriminate].
    cbn [bind] in Hfx.
    destruct (disable_one_shape (d :: ds) kvs eg' Hd) as (kvs' & -> & Hnd' & Hc').
    apply (Hrp kvs' (Hnd' Hnd)); [rewrite Hc'; exact Hcfg | exact Hfx].
Qed.

(* ------------------------------------------------------------------ *)
(** ** The further properties on concrete inputs *)

Lemma spans_manual_view_matches_tasks_witness :
  let st := get_stream (fun _ => hello_doc) (fun _ => []) (fun _ => 1%nat) false true []
              [hello_path] in
  exists t, In t (fst st) /\ exists pages title, t = DocTask pages title.
Proof.
  intros st.
  destruct (fst st) as [|t ts] eqn:Hst; [vm_compute in Hst; discriminate|].
  assert (Hin : In t (fst st)) by (rewrite Hst; left; reflexivity).
  exists t. split; [left; reflexivity|].
  apply (proj1 (proj1 (spans_manual_view_matches_tasks (fun _ => hello_doc) (fun _ => [])
                         (fun _ => 1%nat) false true [] [hello_path] t Hin))).
  reflexivity.
Defined.

Lemma ocr_yielded_task_fields_witness :
  let evs := fst (new_stream (fun _ => []) (fun _ => []) (fun _ => 0%Z) (fun _ => 0%Z)
                    [s "a"] 3 false true [two_box_task]) in
  exists t, In (Yield t) evs /\ get t (s "field_id") = Ok (JStr (s "transcription"))
            /\ get t (s "field_autofocus") = Ok (JBool true).
Proof.
  intros evs.
  assert (Hin : exists t, In (Yield t) evs).
  { eexists. unfold evs. vm_compute. right. right. right. left. reflexivity. }
  destruct Hin as [t Hin]. exists t. split; [exact Hin|].
  destruct (ocr_yielded_task_fields (fun _ => []) (fun _ => []) (fun _ => 0%Z) (fun _ => 0%Z)
              [s "a"] 3 false true [two_box_task] t Hin)
    as (ex & us & annot & path & page & meta & r & H).
  cbv zeta in H.
  destruct H as (_ & _ & _ & _ & _ & _ & _ & _ & _ & _ & _ & _ & _ & Hf & Ha).
  split; assumption.
Defined.



Lemma ocr_one_task_per_span_witness :
  let evs := fst (process_task (fun _ => []) (fun _ => []) (fun _ => 0%Z) (fun _ => 0%Z)
                    [s "a"] 3 false false two_box_task) in
  count_ocr evs = 2%nat /\ count_yield evs = 2%nat.
Proof.
  apply (ocr_one_task_per_span (fun _ => []) (fun _ => []) (fun _ => 0%Z) (fun _ => 0%Z)
           [s "a"] 3 false false two_box_task [box_span 0; box_span 20]);
    vm_compute; reflexivity.
Defined.

Lemma remove_preview_one_spec_witness :
  exists kvs',
    remove_preview_one (s "spans_manual")
      (JObj [(s "text", JStr (s "Hello")); (s "image", JStr (s "data:"));
             (s "config", JObj [(s "blocks", JList [])])]) = Ok (JObj kvs')
    /\ dict_get str_eqb (s "image") kvs' = None.
Proof.
  destruct (remove_preview_one_spec (s "spans_manual")
              [(s "text", JStr (s "Hello")); (s "image", JStr (s "data:"));
               (s "config", JObj [(s "blocks", JList [])])])
    as (kvs' & Hr & _ & Hi & _).
  - vm_compute. repeat constructor; vm_compute; intuition discriminate.
  - intros c Hc. vm_compute in Hc. injection Hc as <-. eexists. reflexivity.
  - exists kvs'. split; assumption.
Defined.

Lemma full_stream_preview_images_witness :
  let out := full_stream_file (fun _ => hello_doc) (fun _ => s "QUJD") (fun _ => 1%nat) false
               false hello_path in
  snd out = None
  /\ forall pg, nth_error (flat_map task_pages (fst out)) 0 = Some pg ->
       pg_image pg = Some (page_to_image (fun _ => s "QUJD") (path_str hello_path) 0).
Proof.
  destruct (proj1 (full_stream_preview_images (fun _ => hello_doc) (fun _ => s "QUJD")
                     (fun _ => 1%nat) false hello_path
                     ltac:(vm_compute; constructor; [discriminate | constructor]))
              ltac:(vm_compute; lia)) as (He & _ & Himg).
  split; [exact He|]. intros pg H. exact (Himg 0%nat pg H).
Defined.

Lemma spans_manual_hide_preview_no_image_witness :
  Forall (fun eg => get eg (s "image") = Err (KeyError (s "image")))
    (fst (spans_manual_stream (fun st => st) false [s "text"] true
            ([JObj [(s "text", JStr (s "Hello")); (s "image", JStr (s "data:"));
                    (s "tokens", JList [JObj [(s "layout", JStr (s "text"))]])]], None))).
Proof.
  apply spans_manual_hide_preview_no_image.
  constructor; [|constructor]. eexists. split; [reflexivity|]. split.
  - vm_compute. repeat constructor; vm_compute; intuition discriminate.
  - intros c Hc. vm_compute in Hc. discriminate.
Defined.
